(** * The instrument store of vn-stocks ([market.py]), embedded and verified

    [MarketData] keeps one JSON document per stock symbol on disk and a
    process-local table of activity scores.  The development has, in
    order: the fragment of Python's value semantics the store relies on
    ([Py]); the store itself (section [MarketData], one definition per
    method, over the constants of the [config] module, which are
    parameters); sample configurations on which the code is evaluated
    ([Sample]); the vocabulary of the properties; and the properties. *)

From Stdlib Require Import ZArith String Ascii SpecFloat.
From stdpp Require Import base gmap strings list pretty.

Local Open Scope string_scope.
Local Open Scope Z_scope.
Local Open Scope list_scope.

(** ** Python values and the operations [market.py] applies to them *)

Module Py.

(** The exception classes that can surface in [market.py]. *)
Inductive exn :=
| KeyError | TypeError | AttributeError | OverflowError
| JSONDecodeError | IOError
| UnicodeDecodeError | RecursionError | ValueError.

Inductive outcome (A : Type) :=
| Ok (a : A)
| Raise (e : exn).
Arguments Ok {A} a.
Arguments Raise {A} e.

(** Numbers: unbounded [int] and binary64 [float]. *)
Inductive num :=
| NInt (z : Z)
| NFloat (f : spec_float).

(** What [json.load] returns; [JNull] is Python's [None].  A [dict] keeps
    its insertion order, so it is an association list. *)
#[local] Set Warnings "-register-all".
Inductive json :=
| JNull
| JBool (b : bool)
| JNum (n : num)
| JStr (s : string)
| JList (l : list json)
| JDict (d : list (string * json)).

#[local] Set Warnings "+register-all".

Definition JInt (z : Z) : json := JNum (NInt z).

(** binary64 arithmetic, as in CPython's [float]. *)
Definition prec : Z := 53.
Definition emax : Z := 1024.

(** [PyLong_AsDouble]: the nearest double, or [OverflowError] when the
    integer is beyond the range of a double. *)
Definition float_of_int (z : Z) : outcome spec_float :=
  match binary_normalize prec emax z 0 false with
  | S754_infinity _ => Raise OverflowError
  | f => Ok f
  end.

(** [a + b] on numbers. *)
Definition py_add (a b : num) : outcome num :=
  match a, b with
  | NInt x, NInt y => Ok (NInt (x + y))
  | NInt x, NFloat g =>
      match float_of_int x with
      | Ok f => Ok (NFloat (SFadd prec emax f g))
      | Raise e => Raise e
      end
  | NFloat f, NInt y =>
      match float_of_int y with
      | Ok g => Ok (NFloat (SFadd prec emax f g))
      | Raise e => Raise e
      end
  | NFloat f, NFloat g => Ok (NFloat (SFadd prec emax f g))
  end.

(** [a * b] on numbers. *)
Definition py_mul (a b : num) : outcome num :=
  match a, b with
  | NInt x, NInt y => Ok (NInt (x * y))
  | NInt x, NFloat g =>
      match float_of_int x with
      | Ok f => Ok (NFloat (SFmul prec emax f g))
      | Raise e => Raise e
      end
  | NFloat f, NInt y =>
      match float_of_int y with
      | Ok g => Ok (NFloat (SFmul prec emax f g))
      | Raise e => Raise e
      end
  | NFloat f, NFloat g => Ok (NFloat (SFmul prec emax f g))
  end.

(** Truth value of an object in [if data:]. *)
Definition truthy (v : json) : bool :=
  match v with
  | JNull => false
  | JBool b => b
  | JNum (NInt z) => negb (z =? 0)
  | JNum (NFloat f) => negb (SFeqb f (S754_zero false))
  | JStr s => negb (String.eqb s "")
  | JList l => match l with [] => false | _ :: _ => true end
  | JDict d => match d with [] => false | _ :: _ => true end
  end.

(** Dictionaries with string keys. *)
Fixpoint dict_get {V} (k : string) (d : list (string * V)) : option V :=
  match d with
  | [] => None
  | (k', v) :: d' => if String.eqb k k' then Some v else dict_get k d'
  end.

(** [d[k] = v]: an existing key keeps its position, a new one goes last. *)
Fixpoint dict_set {V} (k : string) (v : V) (d : list (string * V))
  : list (string * V) :=
  match d with
  | [] => [(k, v)]
  | (k', v') :: d' =>
      if String.eqb k k' then (k, v) :: d' else (k', v') :: dict_set k v d'
  end.

(** [obj[key]] for a string key. *)
Definition getitem (obj : json) (key : string) : outcome json :=
  match obj with
  | JDict d =>
      match dict_get key d with
      | Some v => Ok v
      | None => Raise KeyError
      end
  | _ => Raise TypeError
  end.

(** [obj[key] = v] for a string key; the result is the object after the
    assignment. *)
Definition setitem (obj : json) (key : string) (v : json) : outcome json :=
  match obj with
  | JDict d => Ok (JDict (dict_set key v d))
  | _ => Raise TypeError
  end.

(** [obj.append]: the bound method, which takes the new element and gives
    the object after the call.  Only a [list] has it. *)
Definition append_method (obj : json) : outcome (json -> json) :=
  match obj with
  | JList l => Ok (fun x => JList (l ++ [x]))
  | _ => Raise AttributeError
  end.

(** The characters of a [str].  A string here is the UTF-8 text of the
    [str], and a character is a byte that is no continuation byte
    together with the continuation bytes that follow it. *)
Definition is_continuation (c : ascii) : bool :=
  let n := N_of_ascii c in ((128 <=? n) && (n <? 192))%N.

Definition utf8_chars (l : list ascii) : list (list ascii) :=
  foldr (fun c chars =>
           match chars with
           | ((c' :: _) as char) :: chars' =>
               if is_continuation c' then (c :: char) :: chars'
               else [c] :: chars
           | _ => [c] :: chars
           end) [] l.

(** [len(obj)]. *)
Definition len (obj : json) : outcome Z :=
  match obj with
  | JList l => Ok (Z.of_nat (length l))
  | JDict d => Ok (Z.of_nat (length d))
  | JStr s => Ok (Z.of_nat (length (utf8_chars (list_ascii_of_string s))))
  | _ => Raise TypeError
  end.

(** [l[start:]] on a sequence: a negative [start] counts from the end,
    and the bounds are clipped to the sequence. *)
Definition slice_from {A} (start : Z) (l : list A) : list A :=
  let n := Z.of_nat (length l) in
  let lo := if start <? 0 then Z.max 0 (start + n) else start in
  drop (Z.to_nat lo) l.

(** [obj[start:]].  A [str] is sliced by characters; a [dict] rejects
    a slice as a key. *)
Definition getslice_from (obj : json) (start : Z) : outcome json :=
  match obj with
  | JList l => Ok (JList (slice_from start l))
  | JStr s =>
      Ok (JStr (string_of_list_ascii
                  (concat (slice_from start
                             (utf8_chars (list_ascii_of_string s))))))
  | _ => Raise TypeError
  end.

(** [os.path.join(a, b)] of [posixpath]. *)
Definition startswith_slash (s : string) : bool :=
  match s with
  | String c _ => Ascii.eqb c "/"%char
  | EmptyString => false
  end.

Fixpoint endswith_slash (s : string) : bool :=
  match s with
  | EmptyString => false
  | String c EmptyString => Ascii.eqb c "/"%char
  | String _ s' => endswith_slash s'
  end.

Definition path_join (a b : string) : string :=
  if startswith_slash b then b
  else if (String.eqb a "" || endswith_slash a)%bool then a +:+ b
  else a +:+ "/" +:+ b.

End Py.
Export Py.

(** ** The store *)

(** A team entry of [config.TEAMS]. *)
Record team := Team {
  name : string;
  starting_price : Z;
  volatility : num
}.

(** The constants [market.py] takes from the [config] module. *)
Record config := Config {
  MARKET_DATA_DIR : string;
  TEAMS : list (string * team);
  PRICE_HISTORY_MAX : Z;
  ACTIVITY_DECAY : num
}.

(** A file under the data directory, by what loading it does: its
    content loads as JSON; is text that is not JSON
    ([json.JSONDecodeError]); cannot be opened or read ([IOError]); is
    not UTF-8 text, as a document cut inside a character of several
    bytes is ([UnicodeDecodeError]); is JSON nested deeper than the
    interpreter recurses ([RecursionError]); or is JSON with an integer
    of more digits than [int] converts ([ValueError]).  The last three
    exceptions are in neither of the two classes [_read_stock_data]
    catches. *)
Inductive file :=
| Parsed (v : json)
| Malformed
| Unreadable
| Undecodable
| Overnested
| Overlong.

(** What the methods of [MarketData] act on: the files by path, the
    number of clock readings taken so far, and [self.activity_scores]. *)
Record world := World {
  files : gmap string file;
  ticks : nat;
  activity_scores : list (string * num)
}.

(** A method body: runs in a world, returns or raises, leaves a world. *)
Definition M (A : Type) : Type := world -> outcome A * world.

Definition ret {A} (a : A) : M A := fun w => (Ok a, w).

Definition bind {A B} (m : M A) (k : A -> M B) : M B :=
  fun w =>
    match m w with
    | (Ok a, w') => k a w'
    | (Raise e, w') => (Raise e, w')
    end.

(** An operation on values, which raises without touching the world. *)
Definition lift {A} (o : outcome A) : M A := fun w => (o, w).

(** [try: m  except (classes): h]. *)
Definition try_except {A} (m : M A) (caught : exn -> bool) (h : M A) : M A :=
  fun w =>
    match m w with
    | (Raise e, w') => if caught e then h w' else (Raise e, w')
    | r => r
    end.

Declare Scope py_scope.
Delimit Scope py_scope with py.
Notation "x <~ m ;; k" := (bind m (fun x => k))
  (at level 100, m at next level, right associativity) : py_scope.
Notation "m ;;; k" := (bind m (fun _ => k))
  (at level 100, right associativity) : py_scope.
Local Open Scope py_scope.

(** [for x in l: body]. *)
Fixpoint for_each {A} (l : list A) (body : A -> M unit) : M unit :=
  match l with
  | [] => ret tt
  | x :: l' => body x ;;; for_each l' body
  end.

Definition run {A} (m : M A) (w : world) : outcome A := fst (m w).
Definition exec {A} (m : M A) (w : world) : world := snd (m w).

(** [for x in l: acc = body x acc]. *)
Fixpoint for_fold {A S} (l : list A) (acc : S) (body : A -> S -> M S) : M S :=
  match l with
  | [] => ret acc
  | x :: l' => acc' <~ body x acc ;; for_fold l' acc' body
  end.

(** A history entry [{'timestamp': now, 'price': price}]. *)
Definition sample (now : string) (price : Z) : json :=
  JDict [("timestamp", JStr now); ("price", JInt price)].

(** [if limit:] for an [Optional[int]]. *)
Definition limit_given (limit : option Z) : bool :=
  match limit with
  | Some l => negb (l =? 0)
  | None => false
  end.

Section MarketData.

Variable cfg : config.

(** [clock k] is the string that the [k]-th evaluation of
    [datetime.utcnow().isoformat()] yields. *)
Variable clock : nat -> string.

Definition utcnow_isoformat : M string :=
  fun w => (Ok (clock (ticks w)),
            World (files w) (S (ticks w)) (activity_scores w)).

(** [os.path.exists(p)]. *)
Definition path_exists (p : string) : M bool :=
  fun w => (Ok (match files w !! p with Some _ => true | None => false end), w).

(** [with open(p, 'r', encoding='utf-8') as f: return json.load(f)]. *)
Definition open_json_load (p : string) : M json :=
  fun w =>
    match files w !! p with
    | Some (Parsed v) => (Ok v, w)
    | Some Malformed => (Raise JSONDecodeError, w)
    | Some Unreadable | None => (Raise IOError, w)
    | Some Undecodable => (Raise UnicodeDecodeError, w)
    | Some Overnested => (Raise RecursionError, w)
    | Some Overlong => (Raise ValueError, w)
    end.

(** [with open(p, 'w', encoding='utf-8') as f: json.dump(data, f, ...)].
    What is dumped loads back as the same value.  A write that fails
    (the file cannot be opened, or [json.dump] raises on an integer too
    long to print, after the file has been cut) is not modelled: the
    properties below are about writes that succeed. *)
Definition open_json_dump (p : string) (data : json) : M unit :=
  fun w => (Ok tt,
            World (<[p := Parsed data]> (files w)) (ticks w)
                  (activity_scores w)).

(** [{symbol: 0 for symbol in config.TEAMS.keys()}]. *)
Definition zero_scores : list (string * num) :=
  foldl (fun d symbol => dict_set symbol (NInt 0) d) [] (map fst (TEAMS cfg)).

(** [MarketData()] over the given files. *)
Definition __init__ (fs : gmap string file) (t : nat) : world :=
  World fs t zero_scores.

Definition _get_stock_file (symbol : string) : string :=
  path_join (MARKET_DATA_DIR cfg) (symbol +:+ ".json").

Definition _write_stock_data (symbol : string) (data : json) : M unit :=
  let stock_file := _get_stock_file symbol in
  open_json_dump stock_file data.

Definition _read_stock_data (symbol : string) : M json :=
  let stock_file := _get_stock_file symbol in
  present <~ path_exists stock_file ;;
  if negb present then ret JNull
  else
    try_except (open_json_load stock_file)
      (fun e => match e with JSONDecodeError | IOError => true | _ => false end)
      (ret JNull).

(** The world holds files and no directories, so
    [os.makedirs(self.data_dir, exist_ok=True)] has no counterpart here;
    where it raises, the call stops before the loop and writes
    nothing. *)
Definition initialize : M unit :=
  for_each (TEAMS cfg) (fun '(symbol, team) =>
    let stock_file := _get_stock_file symbol in
    present <~ path_exists stock_file ;;
    if negb present then
      now <~ utcnow_isoformat ;;
      let stock_data := JDict [
        ("team_name", JStr (name team));
        ("symbol", JStr symbol);
        ("starting_price", JInt (starting_price team));
        ("current_price", JInt (starting_price team));
        ("volatility", JNum (volatility team));
        ("price_history", JList [sample now (starting_price team)])
      ] in
      _write_stock_data symbol stock_data
    else ret tt).

Definition get_price (symbol : string) : M json :=
  data <~ _read_stock_data symbol ;;
  if truthy data then lift (getitem data "current_price")
  else ret JNull.

Definition get_stock_info (symbol : string) : M json :=
  _read_stock_data symbol.

(** [price is not None]. *)
Definition is_not_None (v : json) : bool :=
  match v with
  | JNull => false
  | _ => true
  end.

Definition get_all_prices : M (list (string * json)) :=
  for_fold (map fst (TEAMS cfg)) [] (fun symbol prices =>
    price <~ get_price symbol ;;
    if is_not_None price then ret (dict_set symbol price prices)
    else ret prices).

Definition get_all_stocks : M (list json) :=
  for_fold (map fst (TEAMS cfg)) [] (fun symbol stocks =>
    stock_data <~ _read_stock_data symbol ;;
    if truthy stock_data then ret (stocks ++ [stock_data])
    else ret stocks).

(** The list under ['price_history'] is changed in place by [append];
    the [setitem] that follows it records that change in [data]. *)
Definition update_price (symbol : string) (new_price : Z) : M unit :=
  data <~ _read_stock_data symbol ;;
  if negb (truthy data) then ret tt
  else
    data <~ lift (setitem data "current_price" (JInt new_price)) ;;
    history <~ lift (getitem data "price_history") ;;
    push <~ lift (append_method history) ;;
    now <~ utcnow_isoformat ;;
    data <~ lift (setitem data "price_history"
                    (push (sample now new_price))) ;;
    history <~ lift (getitem data "price_history") ;;
    n <~ lift (len history) ;;
    data <~ (if n >? PRICE_HISTORY_MAX cfg then
               history <~ lift (getitem data "price_history") ;;
               trimmed <~ lift (getslice_from history
                                  (- PRICE_HISTORY_MAX cfg)) ;;
               lift (setitem data "price_history" trimmed)
             else ret data) ;;
    _write_stock_data symbol data.

Definition reset_prices : M unit :=
  for_each (TEAMS cfg) (fun '(symbol, team) =>
    data <~ _read_stock_data symbol ;;
    if truthy data then
      data <~ lift (setitem data "current_price"
                      (JInt (starting_price team))) ;;
      history <~ lift (getitem data "price_history") ;;
      push <~ lift (append_method history) ;;
      now <~ utcnow_isoformat ;;
      data <~ lift (setitem data "price_history"
                      (push (sample now (starting_price team)))) ;;
      _write_stock_data symbol data
    else ret tt).

Definition get_price_history (symbol : string) (limit : option Z) : M json :=
  data <~ _read_stock_data symbol ;;
  if negb (truthy data) then ret (JList [])
  else
    history <~ lift (getitem data "price_history") ;;
    match limit with
    | Some l =>
        if limit_given limit then lift (getslice_from history (- l))
        else ret history
    | None => ret history
    end.

Definition get_scores : M (list (string * num)) :=
  fun w => (Ok (activity_scores w), w).

(** [self.activity_scores[symbol]]. *)
Definition score_item (symbol : string) : M num :=
  fun w =>
    match dict_get symbol (activity_scores w) with
    | Some v => (Ok v, w)
    | None => (Raise KeyError, w)
    end.

(** [self.activity_scores[symbol] = v]. *)
Definition set_score_item (symbol : string) (v : num) : M unit :=
  fun w => (Ok tt,
            World (files w) (ticks w) (dict_set symbol v (activity_scores w))).

Definition increment_activity (symbol : string) : M unit :=
  scores <~ get_scores ;;
  if bool_decide (is_Some (dict_get symbol scores)) then
    v <~ score_item symbol ;;
    v' <~ lift (py_add v (NInt 1)) ;;
    set_score_item symbol v'
  else ret tt.

Definition get_activity_score (symbol : string) : M num :=
  scores <~ get_scores ;;
  ret (default (NInt 0) (dict_get symbol scores)).

Definition decay_activity : M unit :=
  scores <~ get_scores ;;
  for_each (map fst scores) (fun symbol =>
    v <~ score_item symbol ;;
    v' <~ lift (py_mul v (ACTIVITY_DECAY cfg)) ;;
    set_score_item symbol v').

Definition reset_activity : M unit :=
  fun w => (Ok tt, World (files w) (ticks w) zero_scores).

End MarketData.

(** ** Team detection ([team_detection.py]) *)

(** [s.startswith(c)] and [s.endswith(c)] for a one-character [c]. *)
Definition str_startswith (c : ascii) (s : string) : bool :=
  match s with
  | String c' _ => Ascii.eqb c' c
  | EmptyString => false
  end.

Fixpoint str_endswith (c : ascii) (s : string) : bool :=
  match s with
  | EmptyString => false
  | String c' EmptyString => Ascii.eqb c' c
  | String _ s' => str_endswith c s'
  end.

(** [s[1:-1]]. *)
Definition slice_1_m1 (s : string) : string :=
  let l := list_ascii_of_string s in
  string_of_list_ascii (take (length l - 2) (drop 1 l)).

(** [if s:] for an [Optional[str]]. *)
Definition str_truthy (o : option string) : bool :=
  match o with
  | Some s => negb (String.eqb s "")
  | None => false
  end.

(** The matches of [_TAG_PATTERN], an opening bracket, one or more
    characters other than a closing bracket, a closing bracket, found
    from left to right without overlap.  The scan is either outside a
    match or inside one, holding the characters of the group so far. *)
Inductive scan :=
| Outside
| Inside (group : list ascii).

(** [[m.group(1) for m in _TAG_PATTERN.finditer(content)]].  A closing
    bracket right after the opening one ends the attempt; the end of the
    text inside an attempt ends the search, as no closing bracket
    follows. *)
Fixpoint tag_groups_from (st : scan) (s : list ascii) : list string :=
  match s with
  | [] => []
  | c :: s' =>
      match st with
      | Outside =>
          if Ascii.eqb c "["%char then tag_groups_from (Inside []) s'
          else tag_groups_from Outside s'
      | Inside group =>
          if Ascii.eqb c "]"%char then
            match group with
            | [] => tag_groups_from Outside s'
            | _ :: _ =>
                string_of_list_ascii group :: tag_groups_from Outside s'
            end
          else tag_groups_from (Inside (group ++ [c])) s'
      end
  end.

Definition tag_groups (content : string) : list string :=
  tag_groups_from Outside (list_ascii_of_string content).

(** The author of a message: [author.bot], and the names of
    [author.roles] in their order when the author is a
    [discord.Member]. *)
Record author := Author {
  bot : bool;
  member_roles : option (list string)
}.

Record message := Message {
  msg_author : author;
  content : string
}.

Section TeamDetection.

Variable cfg : config.

(** [config.TEAM_TAGS], from tag to symbol. *)
Variable TEAM_TAGS : list (string * string).

(** [config.TEAMS[symbol]['role_name']]. *)
Variable role_name : string -> string.

(** [str.strip] and [str.upper]. *)
Variable strip : string -> string.
Variable upper : string -> string.

(** [{team['role_name']: symbol for symbol, team in
    config.TEAMS.items()}]. *)
Definition _ROLE_TO_SYMBOL : list (string * string) :=
  foldl (fun d st => dict_set (role_name (fst st)) (fst st) d) []
        (TEAMS cfg).

(** The loop of [_detect_team_from_roles] over [member.roles]. *)
Fixpoint first_team_role (roles : list string) : option string :=
  match roles with
  | [] => None
  | role :: roles' =>
      match dict_get role _ROLE_TO_SYMBOL with
      | Some symbol => Some symbol
      | None => first_team_role roles'
      end
  end.

Definition _detect_team_from_roles (member : author) : option string :=
  match member_roles member with
  | None => None
  | Some roles => first_team_role roles
  end.

(** The cache of [lru_cache] holds results of a function of the tag
    alone. *)
Definition _get_team_symbol_from_tag (tag : string) : option string :=
  dict_get tag TEAM_TAGS.

(** The tag looked up for a group of the pattern. *)
Definition tag_of_group (group : string) : string :=
  let tag := upper (strip group) in
  if (str_startswith "["%char tag && str_endswith "]"%char tag)%bool
  then slice_1_m1 tag
  else tag.

(** The loop of [_detect_team_from_tags] over the matches. *)
Fixpoint first_team_tag (groups : list string) : option string :=
  match groups with
  | [] => None
  | group :: groups' =>
      let symbol := _get_team_symbol_from_tag (tag_of_group group) in
      if str_truthy symbol then symbol else first_team_tag groups'
  end.

Definition _detect_team_from_tags (content : string) : option string :=
  if String.eqb content "" then None
  else first_team_tag (tag_groups content).

(** The roles are looked at for authors that are not bots only; the
    lookup has no effect, so it is written before the test. *)
Definition detect_team_from_message (m : message) : option string :=
  let from_roles := _detect_team_from_roles (msg_author m) in
  if (negb (bot (msg_author m)) && str_truthy from_roles)%bool
  then from_roles
  else
    let team_symbol := _detect_team_from_tags (content m) in
    if str_truthy team_symbol then team_symbol else None.

End TeamDetection.

(** ** Sample configurations, for evaluating the store *)

Module Sample.

(** [a / b] for two integers that doubles hold exactly: the double
    nearest to the quotient, which is also how a decimal literal such as
    [0.1] is read. *)
Definition float_quot (a b : Z) : spec_float :=
  SFdiv prec emax (binary_normalize prec emax a 0 false)
                  (binary_normalize prec emax b 0 false).

Definition stmp : team := Team "Steampunks" 100 (NFloat (float_quot 1 10)).
Definition gear : team := Team "Gearheads" 250 (NFloat (float_quot 3 10)).

(** One team, history cap 5: the scenario of the design document. *)
Definition cfg5 : config :=
  Config "data/market" [("STMP", stmp)] 5 (NFloat (float_quot 9 10)).

(** Two teams, history cap 2. *)
Definition cfg2 : config :=
  Config "data/market" [("STMP", stmp); ("GEAR", gear)] 2
         (NFloat (float_quot 1 2)).

(** A clock whose readings are all distinct. *)
Definition clock (k : nat) : string :=
  "2024-01-01T00:00:" +:+ pretty k.

(** A document with the given current price and history prices. *)
Definition doc (t : team) (symbol : string) (price : Z) (hist : list Z)
  : json :=
  JDict [
    ("team_name", JStr (name t));
    ("symbol", JStr symbol);
    ("starting_price", JInt (starting_price t));
    ("current_price", JInt price);
    ("volatility", JNum (volatility t));
    ("price_history", JList (map (sample "2023-12-31T23:59:59") hist))
  ].

(** The prices of a history, oldest first. *)
Definition prices_of (v : json) : list json :=
  match v with
  | JList l =>
      map (fun e => match getitem e "price" with Ok p => p | Raise _ => JNull end) l
  | _ => []
  end.

(** No files yet. *)
Definition w_fresh : world := __init__ cfg5 ∅ 0.

(** The document of STMP alone, at its starting price. *)
Definition w_stmp : world :=
  __init__ cfg5
    {[ _get_stock_file cfg5 "STMP" := Parsed (doc stmp "STMP" 100 [100]) ]} 0.

(** STMP at 150 with a history of two samples, under the cap of 2. *)
Definition w_full : world :=
  __init__ cfg2
    {[ _get_stock_file cfg2 "STMP"
         := Parsed (doc stmp "STMP" 150 [100; 150]) ]} 0.

(** The file of STMP is not JSON; the document of GEAR is fine. *)
Definition w_bad : world :=
  __init__ cfg2
    (<[ _get_stock_file cfg2 "STMP" := Malformed ]>
       {[ _get_stock_file cfg2 "GEAR"
            := Parsed (doc gear "GEAR" 250 [250]) ]}) 0.

(** The file of STMP loads as a [dict] that has no ['price_history']
    and no ['current_price']; the document of GEAR is fine. *)
Definition w_odd : world :=
  __init__ cfg2
    (<[ _get_stock_file cfg2 "STMP" := Parsed (JDict [("note", JInt 1)]) ]>
       {[ _get_stock_file cfg2 "GEAR"
            := Parsed (doc gear "GEAR" 250 [250]) ]}) 0.

(** Both documents of the two-team configuration, STMP at the cap. *)
Definition w_both : world :=
  __init__ cfg2
    (<[ _get_stock_file cfg2 "STMP"
          := Parsed (doc stmp "STMP" 150 [100; 150]) ]>
       {[ _get_stock_file cfg2 "GEAR"
            := Parsed (doc gear "GEAR" 260 [260]) ]}) 0.

(** No files yet, two teams. *)
Definition w_fresh2 : world := __init__ cfg2 ∅ 0.

(** The file of STMP is not UTF-8 text; the document of GEAR is fine. *)
Definition w_cut : world :=
  __init__ cfg2
    (<[ _get_stock_file cfg2 "STMP" := Undecodable ]>
       {[ _get_stock_file cfg2 "GEAR"
            := Parsed (doc gear "GEAR" 260 [260]) ]}) 0.

(** The document of STMP is fine; the file of GEAR loads as a [dict]
    without ['price_history']. *)
Definition w_half : world :=
  __init__ cfg2
    (<[ _get_stock_file cfg2 "STMP"
          := Parsed (doc stmp "STMP" 150 [100; 150]) ]>
       {[ _get_stock_file cfg2 "GEAR" := Parsed (JDict [("note", JInt 1)]) ]})
    0.

(** One team, history cap 0. *)
Definition cfg0 : config :=
  Config "data/market" [("STMP", stmp)] 0 (NFloat (float_quot 9 10)).

Definition w_stmp0 : world :=
  __init__ cfg0
    {[ _get_stock_file cfg0 "STMP" := Parsed (doc stmp "STMP" 100 [100]) ]} 0.

(** [str.upper] and [str.strip] on ASCII text: the letters [a] to [z]
    go to [A] to [Z]; white space is the characters 9 to 13, 28 to 31
    and the blank. *)
Definition ascii_upper_char (c : ascii) : ascii :=
  let n := N_of_ascii c in
  if ((97 <=? n) && (n <=? 122))%N then ascii_of_N (n - 32) else c.

Definition ascii_upper (s : string) : string :=
  string_of_list_ascii (map ascii_upper_char (list_ascii_of_string s)).

Definition ascii_is_space (c : ascii) : bool :=
  let n := N_of_ascii c in
  (((9 <=? n) && (n <=? 13)) || ((28 <=? n) && (n <=? 32)))%N.

Fixpoint lstrip (l : list ascii) : list ascii :=
  match l with
  | [] => []
  | c :: l' => if ascii_is_space c then lstrip l' else l
  end.

Definition ascii_strip (s : string) : string :=
  string_of_list_ascii
    (reverse (lstrip (reverse (lstrip (list_ascii_of_string s))))).

(** Tags and role names of the two teams. *)
Definition tags2 : list (string * string) :=
  [("STMP", "STMP"); ("S", "STMP"); ("GEAR", "GEAR")].

Definition role_name2 (symbol : string) : string :=
  if String.eqb symbol "STMP" then "Steampunk Crew"
  else if String.eqb symbol "GEAR" then "Gearhead Guild"
  else "".

End Sample.

(** ** Vocabulary of the properties *)

(** The [n] most recent elements of an oldest-first sequence. *)
Definition most_recent {A} (n : nat) (l : list A) : list A :=
  drop (length l - n)%nat l.

(** [m] called [n] times in a row. *)
Fixpoint repeat_call (n : nat) (m : M unit) : M unit :=
  match n with
  | O => ret tt
  | S n' => m ;;; repeat_call n' m
  end.

Section Vocabulary.

Variable cfg : config.
Variable clock : nat -> string.

(** What the file of [symbol] holds, as the reader of the store sees it. *)
Definition stored (w : world) (symbol : string) : json :=
  match files w !! _get_stock_file cfg symbol with
  | Some (Parsed v) => v
  | _ => JNull
  end.

(** The document of [symbol] exists and is readable: the reader of the
    store yields data that passes [if data:]. *)
Definition readable (w : world) (symbol : string) : Prop :=
  exists data,
    run (_read_stock_data cfg symbol) w = Ok data /\ truthy data = true.

(** The document of [symbol] exists but does not load. *)
Definition corrupt (w : world) (symbol : string) : Prop :=
  files w !! _get_stock_file cfg symbol = Some Malformed \/
  files w !! _get_stock_file cfg symbol = Some Unreadable.

(** What the load of a file raises past the [except] clause of
    [_read_stock_data], if anything. *)
Definition escaping (f : file) : option exn :=
  match f with
  | Undecodable => Some UnicodeDecodeError
  | Overnested => Some RecursionError
  | Overlong => Some ValueError
  | Parsed _ | Malformed | Unreadable => None
  end.

(** The load of the file of [symbol] raises [e], which is not caught. *)
Definition load_escapes (w : world) (symbol : string) (e : exn) : Prop :=
  exists f,
    files w !! _get_stock_file cfg symbol = Some f /\ escaping f = Some e.

(** The file of [symbol], if there is one, loads or fails to load with
    an exception that is caught. *)
Definition settled (w : world) (symbol : string) : Prop :=
  forall e, ~ load_escapes w symbol e.

(** The reader returns for [symbol], with data that fails [if data:]:
    there is no file, or its load raises one of the two exceptions that
    are caught, or it loads as a false value. *)
Definition no_data (w : world) (symbol : string) : Prop :=
  exists data,
    run (_read_stock_data cfg symbol) w = Ok data /\ truthy data = false.

(** The reader returns for every configured symbol. *)
Definition reader_returns (w : world) : Prop :=
  forall symbol, symbol ∈ map fst (TEAMS cfg) ->
    exists data, run (_read_stock_data cfg symbol) w = Ok data.

(** The retained history of [symbol], oldest first, is [h]. *)
Definition history_is (w : world) (symbol : string) (h : list json) : Prop :=
  run (get_price_history cfg symbol None) w = Ok (JList h).

(** The samples that successive updates with prices [ps] append, when
    the first of them takes clock reading [t]. *)
Fixpoint samples_from (t : nat) (ps : list Z) : list json :=
  match ps with
  | [] => []
  | p :: ps' => sample (clock t) p :: samples_from (S t) ps'
  end.

(** The trim of [update_price]: what is kept of a history [l]. *)
Definition trimmed (l : list json) : list json :=
  if Z.of_nat (length l) >? PRICE_HISTORY_MAX cfg
  then slice_from (- PRICE_HISTORY_MAX cfg) l
  else l.

(** The document [update_price] writes, from the fields [d] of the one
    it read, the history [h] in it, the clock reading and the price. *)
Definition updated (d : list (string * json)) (h : list json)
    (now : string) (new_price : Z) : json :=
  JDict (dict_set "price_history"
           (JList (trimmed (h ++ [sample now new_price])))
           (dict_set "current_price" (JInt new_price) d)).

(** The document [initialize] creates for a team. *)
Definition seeded (symbol : string) (t : team) (now : string) : json :=
  JDict [
    ("team_name", JStr (name t));
    ("symbol", JStr symbol);
    ("starting_price", JInt (starting_price t));
    ("current_price", JInt (starting_price t));
    ("volatility", JNum (volatility t));
    ("price_history", JList [sample now (starting_price t)])
  ].

(** The world after a write of [v] to the file of [symbol] that took
    [k] clock readings. *)
Definition written (w : world) (symbol : string) (v : json) (k : nat)
  : world :=
  World (<[_get_stock_file cfg symbol := Parsed v]> (files w))
        (k + ticks w) (activity_scores w).

(** [current_price] of [symbol] is an integer that is not negative. *)
Definition price_nonneg (w : world) (symbol : string) : Prop :=
  exists c, run (get_price cfg symbol) w = Ok (JInt c) /\ 0 <= c.

End Vocabulary.

Section ResetVocabulary.

Variable cfg : config.

(** The document [reset_prices] writes, from the fields [d] of the one
    it read, the history [h] in it, the clock reading and the starting
    price of the team. *)
Definition reset_doc (d : list (string * json)) (h : list json)
    (now : string) (price : Z) : json :=
  JDict (dict_set "price_history" (JList (h ++ [sample now price]))
           (dict_set "current_price" (JInt price) d)).

(** The files of the configured symbols, in configuration order. *)
Definition stock_files : list string :=
  map (fun st => _get_stock_file cfg (fst st)) (TEAMS cfg).

(** Every configured symbol with a readable document has a history. *)
Definition histories_readable (w : world) : Prop :=
  forall symbol, symbol ∈ map fst (TEAMS cfg) -> readable cfg w symbol ->
    exists h, history_is cfg w symbol h.

End ResetVocabulary.

(** ** Facts about the Python operations *)

Section PyFacts.

Context {V : Type}.
Implicit Types (d : list (string * V)) (k : string) (v : V).

Lemma dict_get_set_eq k v d : dict_get k (dict_set k v d) = Some v.
Proof.
  induction d as [|[k' v'] d IH]; simpl.
  - by rewrite String.eqb_refl.
  - destruct (String.eqb k k') eqn:E; simpl.
    + by rewrite String.eqb_refl.
    + by rewrite E.
Qed.

Lemma dict_get_set_ne k k' v d :
  k <> k' -> dict_get k' (dict_set k v d) = dict_get k' d.
Proof.
  intros Hne. induction d as [|[k0 v0] d IH]; simpl.
  - destruct (String.eqb k' k) eqn:E; [|done].
    apply String.eqb_eq in E. congruence.
  - destruct (String.eqb k k0) eqn:E; simpl.
    + apply String.eqb_eq in E. subst k0.
      destruct (String.eqb k' k) eqn:E'; [|done].
      apply String.eqb_eq in E'. congruence.
    + by rewrite IH.
Qed.

Lemma dict_set_set k v v' d :
  dict_set k v' (dict_set k v d) = dict_set k v' d.
Proof.
  induction d as [|[k0 v0] d IH]; simpl.
  - by rewrite String.eqb_refl.
  - destruct (String.eqb k k0) eqn:E; simpl.
    + by rewrite String.eqb_refl.
    + by rewrite E, IH.
Qed.

Lemma dict_set_keys_present k v d :
  is_Some (dict_get k d) -> map fst (dict_set k v d) = map fst d.
Proof.
  induction d as [|[k0 v0] d IH]; simpl.
  - intros [? ?]. done.
  - destruct (String.eqb k k0) eqn:E; simpl.
    + apply String.eqb_eq in E. by subst.
    + intros H. by rewrite IH.
Qed.

Lemma dict_get_is_Some_keys k d :
  is_Some (dict_get k d) <-> k ∈ map fst d.
Proof.
  induction d as [|[k0 v0] d IH]; simpl.
  - split; [intros [? ?]; done | intros H; inversion H].
  - destruct (String.eqb k k0) eqn:E.
    + apply String.eqb_eq in E. subst. split; [intros; left | eauto].
    + apply String.eqb_neq in E. rewrite IH. split.
      * intros H. by right.
      * intros H. apply elem_of_cons in H as [?|?]; [congruence | done].
Qed.

End PyFacts.

Section SliceFacts.

Context {A : Type}.
Implicit Types (l : list A) (n : nat).

Lemma most_recent_ge n l : (length l <= n)%nat -> most_recent n l = l.
Proof.
  intros H. unfold most_recent.
  replace (length l - n)%nat with 0%nat by lia. apply drop_0.
Qed.

Lemma length_most_recent n l :
  length (most_recent n l) = Nat.min n (length l).
Proof. unfold most_recent. rewrite length_drop. lia. Qed.

Lemma most_recent_snoc n l x :
  most_recent (S n) (l ++ [x]) = most_recent n l ++ [x].
Proof.
  unfold most_recent. rewrite length_app, drop_app. simpl.
  replace (length l + 1 - S n)%nat with (length l - n)%nat by lia.
  replace (length l - n - length l)%nat with 0%nat by lia.
  done.
Qed.

Lemma most_recent_app_trim n l r :
  most_recent n (most_recent n l ++ r) = most_recent n (l ++ r).
Proof.
  unfold most_recent.
  rewrite <- (drop_app_le l r (length l - n)) by lia.
  rewrite drop_drop, length_drop. f_equal. rewrite length_app. lia.
Qed.

Lemma slice_from_neg (h : Z) l :
  0 < h -> slice_from (- h) l = most_recent (Z.to_nat h) l.
Proof.
  intros H. unfold slice_from, most_recent.
  destruct (Z.ltb_spec (- h) 0); [|lia].
  f_equal. lia.
Qed.

Lemma slice_from_zero l : slice_from (- 0) l = l.
Proof. unfold slice_from. simpl. apply drop_0. Qed.

End SliceFacts.

(** ** Facts about the store *)

Lemma for_each_cons {A} (x : A) (l : list A) (body : A -> M unit) w :
  for_each (x :: l) body w =
    match body x w with
    | (Ok _, w') => for_each l body w'
    | (Raise e, w') => (Raise e, w')
    end.
Proof. done. Qed.

Lemma for_fold_cons {A S} (x : A) (l : list A) (acc : S)
    (body : A -> S -> M S) w :
  for_fold (x :: l) acc body w =
    match body x acc w with
    | (Ok acc', w') => for_fold l acc' body w'
    | (Raise e, w') => (Raise e, w')
    end.
Proof. done. Qed.

Section StoreFacts.

Variable cfg : config.
Variable clock : nat -> string.

Local Notation "'H'" := (PRICE_HISTORY_MAX cfg).
Local Notation "'path'" := (_get_stock_file cfg).

Lemma truthy_dict_set k v d : truthy (JDict (dict_set k v d)) = true.
Proof.
  destruct d as [|[k' v'] d]; simpl; [done|].
  by destruct (String.eqb k k').
Qed.

Lemma trimmed_pos l :
  0 < H -> trimmed cfg l = most_recent (Z.to_nat H) l.
Proof.
  intros HH. unfold trimmed.
  destruct (Z.gtb_spec (Z.of_nat (length l)) H).
  - by apply slice_from_neg.
  - symmetry. apply most_recent_ge. lia.
Qed.

Lemma trimmed_snoc l x :
  0 <= H -> exists l', trimmed cfg (l ++ [x]) = l' ++ [x].
Proof.
  intros HH. destruct (decide (H = 0)) as [E|NE].
  - exists l. unfold trimmed. rewrite E.
    destruct (Z.gtb_spec (Z.of_nat (length (l ++ [x]))) 0); [|done].
    apply slice_from_zero.
  - rewrite trimmed_pos by lia.
    destruct (Z.to_nat H) as [|n] eqn:E; [lia|].
    rewrite most_recent_snoc. eauto.
Qed.

Lemma length_trimmed l :
  0 < H -> Z.of_nat (length (trimmed cfg l)) <= H.
Proof.
  intros HH. rewrite trimmed_pos, length_most_recent by done. lia.
Qed.

(** The reader leaves the world alone; it raises what the load of the
    file lets through, and nothing else. *)
Lemma read_stock_data_cases symbol w :
  _read_stock_data cfg symbol w =
    (match files w !! path symbol with
     | Some f =>
         match escaping f with
         | Some e => Raise e
         | None => Ok (stored cfg w symbol)
         end
     | None => Ok (stored cfg w symbol)
     end, w).
Proof.
  unfold _read_stock_data, stored, bind, path_exists, try_except,
    open_json_load, ret.
  destruct (files w !! path symbol) as [[v| | | | |]|] eqn:E; simpl;
    rewrite ?E; reflexivity.
Qed.

Lemma settled_escaping w symbol f :
  settled cfg w symbol -> files w !! path symbol = Some f ->
  escaping f = None.
Proof.
  intros Hs E. destruct (escaping f) as [e|] eqn:He; [|done].
  destruct (Hs e). by exists f.
Qed.

Lemma read_stock_data_spec symbol w :
  settled cfg w symbol ->
  _read_stock_data cfg symbol w = (Ok (stored cfg w symbol), w).
Proof.
  intros Hs. rewrite read_stock_data_cases.
  destruct (files w !! path symbol) as [f|] eqn:E; [|done].
  by rewrite (settled_escaping w symbol f Hs E).
Qed.

Lemma read_stock_data_escapes symbol w e :
  load_escapes cfg w symbol e ->
  _read_stock_data cfg symbol w = (Raise e, w).
Proof. intros (f & E & He). by rewrite read_stock_data_cases, E, He. Qed.

Lemma settled_or_escapes w symbol :
  settled cfg w symbol \/ exists e, load_escapes cfg w symbol e.
Proof.
  destruct (files w !! path symbol) as [f|] eqn:E.
  - destruct (escaping f) as [e|] eqn:He.
    + right. exists e, f. by split.
    + left. intros e (f' & E' & He'). congruence.
  - left. intros e (f' & E' & _). congruence.
Qed.

Lemma reader_returns_settled symbol w data :
  run (_read_stock_data cfg symbol) w = Ok data ->
  settled cfg w symbol /\ data = stored cfg w symbol.
Proof.
  intros Hrun. destruct (settled_or_escapes w symbol) as [Hs|[e He]].
  - unfold run in Hrun. rewrite read_stock_data_spec in Hrun by done.
    split; [done|]. simpl in Hrun. congruence.
  - unfold run in Hrun. by rewrite (read_stock_data_escapes _ _ _ He) in Hrun.
Qed.

Lemma stored_settled symbol w :
  stored cfg w symbol <> JNull -> settled cfg w symbol.
Proof.
  unfold stored. intros Hv e (f & E & He). rewrite E in Hv.
  by destruct f.
Qed.

Lemma truthy_settled symbol w :
  truthy (stored cfg w symbol) = true -> settled cfg w symbol.
Proof. intros Ht. apply stored_settled. intros E. by rewrite E in Ht. Qed.

Lemma dict_settled symbol w d :
  stored cfg w symbol = JDict d -> settled cfg w symbol.
Proof. intros Hd. apply stored_settled. by rewrite Hd. Qed.

Lemma readable_stored w symbol :
  readable cfg w symbol <-> truthy (stored cfg w symbol) = true.
Proof.
  unfold readable. split.
  - intros (data & Hrun & Ht).
    by apply reader_returns_settled in Hrun as [_ ->].
  - intros Ht. exists (stored cfg w symbol). split; [|done].
    unfold run. by rewrite read_stock_data_spec by by apply truthy_settled.
Qed.

Lemma stored_written w symbol v k :
  stored cfg (written cfg w symbol v k) symbol = v.
Proof. unfold stored, written. simpl. by rewrite lookup_insert_eq. Qed.

Lemma written_settled w symbol v k :
  settled cfg (written cfg w symbol v k) symbol.
Proof.
  intros e (f & E & He). unfold written in E. simpl in E.
  rewrite lookup_insert_eq in E. by injection E as <-.
Qed.

Lemma get_price_spec symbol w :
  settled cfg w symbol ->
  get_price cfg symbol w =
    (if truthy (stored cfg w symbol)
     then getitem (stored cfg w symbol) "current_price"
     else Ok JNull, w).
Proof.
  intros Hdec. unfold get_price, bind. rewrite read_stock_data_spec by done.
  by destruct (truthy _).
Qed.

Lemma get_price_history_spec symbol limit w :
  settled cfg w symbol ->
  get_price_history cfg symbol limit w =
    (if truthy (stored cfg w symbol) then
       match getitem (stored cfg w symbol) "price_history" with
       | Ok history =>
           match limit with
           | Some l =>
               if limit_given limit then getslice_from history (- l)
               else Ok history
           | None => Ok history
           end
       | Raise e => Raise e
       end
     else Ok (JList []), w).
Proof.
  intros Hdec. unfold get_price_history, bind.
  rewrite read_stock_data_spec by done.
  destruct (truthy _); simpl; [|done].
  unfold lift. destruct (getitem _ _); [|done].
  destruct limit as [l|]; [|done]. by destruct (limit_given _).
Qed.

(** A history can be read off exactly when the document is a [dict]
    whose ['price_history'] is a list. *)
Lemma history_is_stored w symbol h :
  readable cfg w symbol ->
  history_is cfg w symbol h <->
  exists d, stored cfg w symbol = JDict d /\
            dict_get "price_history" d = Some (JList h).
Proof.
  rewrite readable_stored. intros Ht.
  unfold history_is, run.
  rewrite get_price_history_spec, Ht by by apply truthy_settled. simpl.
  split.
  - destruct (stored cfg w symbol) as [| | | | |d]; simpl; try done.
    destruct (dict_get "price_history" d) as [v|] eqn:E; [|done].
    intros [= ->]. eauto.
  - intros (d & -> & E). simpl. by rewrite E.
Qed.

(** [update_price] on a well-formed document. *)
Lemma update_price_spec symbol new_price w d h :
  stored cfg w symbol = JDict d ->
  dict_get "price_history" d = Some (JList h) ->
  update_price cfg clock symbol new_price w =
    (Ok tt, written cfg w symbol
              (updated cfg d h (clock (ticks w)) new_price) 1).
Proof.
  intros Hd Hh. unfold update_price, bind.
  rewrite read_stock_data_spec, Hd by by eapply dict_settled.
  assert (truthy (JDict d) = true) as ->.
  { destruct d; [done|done]. }
  simpl. unfold lift. simpl.
  rewrite dict_get_set_ne, Hh by done. simpl.
  rewrite dict_get_set_eq. simpl.
  unfold written, updated, trimmed, _write_stock_data, open_json_dump.
  destruct (_ >? H); simpl.
  - by rewrite dict_set_set.
  - done.
Qed.

(** Conversely, an update of a readable document that returns found a
    [dict] with a list under ['price_history']. *)
Lemma update_price_ok_inv symbol new_price w w' :
  readable cfg w symbol ->
  update_price cfg clock symbol new_price w = (Ok tt, w') ->
  exists d h, stored cfg w symbol = JDict d /\
              dict_get "price_history" d = Some (JList h).
Proof.
  rewrite readable_stored. intros Ht.
  unfold update_price, bind.
  rewrite read_stock_data_spec, Ht by by apply truthy_settled. simpl.
  destruct (stored cfg w symbol) as [| | | | |d]; simpl; try done.
  unfold lift. simpl. rewrite dict_get_set_ne by done.
  destruct (dict_get "price_history" d) as [v|] eqn:E; [|done].
  destruct v; simpl; try done. eauto.
Qed.

End StoreFacts.

(** ** Properties of a single update *)

Section UpdateProperties.

Variable cfg : config.
Variable clock : nat -> string.

Local Notation "'H'" := (PRICE_HISTORY_MAX cfg).

Lemma readable_written w symbol k v d :
  readable cfg (written cfg w symbol (JDict (dict_set k v d)) 1) symbol.
Proof. apply readable_stored. rewrite stored_written. apply truthy_dict_set. Qed.

Lemma history_is_updated w symbol d h now p :
  history_is cfg (written cfg w symbol (updated cfg d h now p) 1) symbol
    (trimmed cfg (h ++ [sample now p])).
Proof.
  apply history_is_stored; [apply readable_written|].
  rewrite stored_written. eexists. split; [done|].
  apply dict_get_set_eq.
Qed.

Lemma get_price_updated w symbol d h now p :
  run (get_price cfg symbol) (written cfg w symbol (updated cfg d h now p) 1)
  = Ok (JInt p).
Proof.
  unfold run.
  rewrite get_price_spec, stored_written by apply written_settled.
  unfold updated.
  rewrite truthy_dict_set. simpl.
  by rewrite dict_get_set_ne, dict_get_set_eq.
Qed.

(** C1. After a successful [update_price(symbol, p)] on a symbol whose
    document exists and is readable, [get_price(symbol)] returns [p], and
    [p] is the price of the last entry of the symbol's [price_history].
    The history cap of the configuration is taken not to be negative. *)
Theorem update_price_consistent symbol p w w' :
  0 <= H ->
  readable cfg w symbol ->
  update_price cfg clock symbol p w = (Ok tt, w') ->
  run (get_price cfg symbol) w' = Ok (JInt p) /\
  exists history e,
    history_is cfg w' symbol history /\
    last history = Some e /\
    getitem e "price" = Ok (JInt p).
Proof.
  intros HH Hr Hu.
  destruct (update_price_ok_inv cfg clock _ _ _ _ Hr Hu) as (d & h & Hd & Hh).
  rewrite (update_price_spec cfg clock _ _ _ _ _ Hd Hh) in Hu.
  injection Hu as <-. split; [apply get_price_updated|].
  destruct (trimmed_snoc cfg h (sample (clock (ticks w)) p) HH) as [l' El].
  exists (l' ++ [sample (clock (ticks w)) p]), (sample (clock (ticks w)) p).
  split; [|split].
  - rewrite <- El. apply history_is_updated.
  - apply last_snoc.
  - done.
Qed.

(** C10. A call of [update_price] on a readable document with history
    [h] returns and appends exactly one sample, whatever the new price
    is, the stored [current_price] included: the history becomes the
    most recent [H - 1] old samples followed by the new sample, which is
    the old samples followed by the new one, cut to the most recent
    [H]. *)
Theorem update_price_appends_one symbol p w h :
  0 < H ->
  readable cfg w symbol ->
  history_is cfg w symbol h ->
  let e := sample (clock (ticks w)) p in
  let w' := exec (update_price cfg clock symbol p) w in
  run (update_price cfg clock symbol p) w = Ok tt /\
  history_is cfg w' symbol (most_recent (Z.to_nat H - 1) h ++ [e]) /\
  most_recent (Z.to_nat H - 1) h ++ [e]
    = most_recent (Z.to_nat H) (h ++ [e]).
Proof.
  intros HH Hr Hh e w'.
  apply history_is_stored in Hh as (d & Hd & Hg); [|done].
  pose proof (update_price_spec cfg clock symbol p w d h Hd Hg) as Hu.
  assert (most_recent (Z.to_nat H - 1) h ++ [e]
          = most_recent (Z.to_nat H) (h ++ [e])) as Eq.
  { destruct (Z.to_nat H) as [|n] eqn:En; [lia|].
    rewrite most_recent_snoc. do 2 f_equal. lia. }
  split_and!; [by unfold run; rewrite Hu| |done].
  rewrite Eq. unfold w', exec. rewrite Hu. simpl.
  rewrite <- trimmed_pos by done. apply history_is_updated.
Qed.

(** The trim of [update_price] restores the cap whatever the history
    was before. *)
Lemma update_price_within_cap symbol p w d h :
  0 < H ->
  stored cfg w symbol = JDict d ->
  dict_get "price_history" d = Some (JList h) ->
  exists h',
    history_is cfg (exec (update_price cfg clock symbol p) w) symbol h' /\
    Z.of_nat (length h') <= H.
Proof.
  intros HH Hd Hg. unfold exec.
  rewrite (update_price_spec cfg clock symbol p w d h Hd Hg). simpl.
  eexists. split; [apply history_is_updated|]. by apply length_trimmed.
Qed.

(** C5, as the code has it.  [update_price] stores the price it is given
    and applies no clamp: after a successful call on a readable document
    [get_price] returns [p], so the price is non-negative afterwards
    exactly when [p] is. *)
Theorem update_price_stores_given_price symbol p w w' :
  readable cfg w symbol ->
  update_price cfg clock symbol p w = (Ok tt, w') ->
  run (get_price cfg symbol) w' = Ok (JInt p) /\
  (price_nonneg cfg w' symbol <-> 0 <= p).
Proof.
  intros Hr Hu.
  destruct (update_price_ok_inv cfg clock _ _ _ _ Hr Hu) as (d & h & Hd & Hh).
  rewrite (update_price_spec cfg clock _ _ _ _ _ Hd Hh) in Hu.
  injection Hu as <-.
  pose proof (get_price_updated w symbol d h (clock (ticks w)) p) as Hg.
  split; [done|]. unfold price_nonneg. rewrite Hg. split.
  - intros (c & [= <-] & Hc). done.
  - intros Hp. eauto.
Qed.

(** C8, as the code has it.  For a readable document with history [h],
    [get_price_history] returns [h], oldest first, when no limit is
    given and also when the limit is [0]; for a positive limit [l] it
    returns the [l] most recent samples, which is all of [h] when [l] is
    not below its length. *)
Theorem get_price_history_limit symbol w h :
  readable cfg w symbol ->
  history_is cfg w symbol h ->
  run (get_price_history cfg symbol None) w = Ok (JList h) /\
  run (get_price_history cfg symbol (Some 0)) w = Ok (JList h) /\
  forall l, 0 < l ->
    run (get_price_history cfg symbol (Some l)) w
      = Ok (JList (most_recent (Z.to_nat l) h)) /\
    (Z.of_nat (length h) <= l -> most_recent (Z.to_nat l) h = h).
Proof.
  intros Hr Hh. split; [done|].
  pose proof Hh as Hh'.
  apply history_is_stored in Hh' as (d & Hd & Hg); [|done].
  apply readable_stored in Hr.
  unfold run. split.
  - rewrite get_price_history_spec, Hr, Hd by by apply truthy_settled.
    simpl. by rewrite Hg.
  - intros l Hl. split.
    + rewrite get_price_history_spec, Hr, Hd by by apply truthy_settled.
      simpl. rewrite Hg.
      destruct (Z.eqb_spec l 0); [lia|]. simpl.
      by rewrite slice_from_neg.
    + intros Hlen. apply most_recent_ge. lia.
Qed.

End UpdateProperties.

(** ** Initialisation and sequences of updates *)

Section InitializeProperties.

Variable cfg : config.
Variable clock : nat -> string.

Local Notation "'H'" := (PRICE_HISTORY_MAX cfg).
Local Notation "'path'" := (_get_stock_file cfg).

(** What one run of [initialize] does: it returns, leaves the activity
    scores and every file that was there alone, makes the file of every
    configured symbol exist, and what it creates is a seeded document. *)
Lemma initialize_spec w :
  exists w',
    initialize cfg clock w = (Ok tt, w') /\
    activity_scores w' = activity_scores w /\
    (forall p f, files w !! p = Some f -> files w' !! p = Some f) /\
    (forall symbol, symbol ∈ map fst (TEAMS cfg) ->
       is_Some (files w' !! path symbol)) /\
    (forall p f, files w !! p = None -> files w' !! p = Some f ->
       exists symbol t k, (symbol, t) ∈ TEAMS cfg /\ path symbol = p /\
                          f = Parsed (seeded symbol t (clock k))).
Proof.
  unfold initialize.
  match goal with |- context [for_each _ ?b] => set (body := b) end.
  generalize (TEAMS cfg) as L.
  intros L. revert w. induction L as [|[symbol t] L IH]; intros w.
  - exists w. simpl. unfold ret. split_and!; try done.
    + intros s Hs. inversion Hs.
    + intros p f Hn Hf. congruence.
  - rewrite for_each_cons.
    destruct (files w !! path symbol) as [f0|] eqn:E.
    + assert (body (symbol, t) w = (Ok tt, w)) as ->.
      { unfold body, bind, path_exists. by rewrite E. }
      destruct (IH w) as (w' & Hrun & Hsc & Hkeep & Hall & Hnew).
      exists w'. split_and!; try done.
      * intros s Hs. simpl in Hs.
        apply elem_of_cons in Hs as [->|Hs]; [|by apply Hall].
        rewrite (Hkeep _ _ E). eauto.
      * intros p f Hn Hf.
        destruct (Hnew p f Hn Hf) as (s & t' & k & Hin & Hp & Hf').
        exists s, t', k. split_and!; try done. by right.
    + set (w1 := written cfg w symbol (seeded symbol t (clock (ticks w))) 1).
      assert (body (symbol, t) w = (Ok tt, w1)) as ->.
      { unfold body, bind, path_exists. by rewrite E. }
      destruct (IH w1) as (w' & Hrun & Hsc & Hkeep & Hall & Hnew).
      exists w'. split_and!; try done.
      * intros p f Hf. apply Hkeep. unfold w1, written. simpl.
        rewrite lookup_insert_ne; [done|]. intros <-. congruence.
      * intros s Hs. simpl in Hs.
        apply elem_of_cons in Hs as [->|Hs]; [|by apply Hall].
        erewrite Hkeep; [eauto|]. unfold w1, written. simpl.
        apply lookup_insert_eq.
      * intros p f Hn Hf. destruct (decide (path symbol = p)) as [<-|Hne].
        -- exists symbol, t, (ticks w). split_and!; [by left|done|].
           assert (files w' !! path symbol
                   = Some (Parsed (seeded symbol t (clock (ticks w))))) as Hw'.
           { apply Hkeep. unfold w1, written. simpl. apply lookup_insert_eq. }
           congruence.
        -- destruct (Hnew p f) as (s & t' & k & Hin & Hp & Hf'); [|done|].
           { unfold w1, written. simpl. by rewrite lookup_insert_ne. }
           exists s, t', k. split_and!; try done. by right.
Qed.

(** When every configured symbol has its file, [initialize] does
    nothing, whatever the clock. *)
Lemma initialize_noop (clk : nat -> string) w :
  (forall symbol, symbol ∈ map fst (TEAMS cfg) ->
     is_Some (files w !! path symbol)) ->
  initialize cfg clk w = (Ok tt, w).
Proof.
  unfold initialize.
  match goal with |- context [for_each _ ?b] => set (body := b) end.
  generalize (TEAMS cfg) as L.
  induction L as [|[symbol t] L IH]; intros Hall; [done|].
  rewrite for_each_cons.
  destruct (Hall symbol) as [f Hf]; [by left|].
  assert (body (symbol, t) w = (Ok tt, w)) as ->.
  { unfold body, bind, path_exists. by rewrite Hf. }
  apply IH. intros s Hs. apply Hall. by right.
Qed.

Lemma truthy_dict_get k d (v : json) :
  dict_get k d = Some v -> truthy (JDict d) = true.
Proof. by destruct d. Qed.

Lemma history_is_dict w symbol d h :
  stored cfg w symbol = JDict d ->
  dict_get "price_history" d = Some (JList h) ->
  readable cfg w symbol /\ history_is cfg w symbol h.
Proof.
  intros Hd Hh.
  assert (readable cfg w symbol) as Hr.
  { apply readable_stored. rewrite Hd. by eapply truthy_dict_get. }
  split; [done|]. apply history_is_stored; eauto.
Qed.

(** Successive updates of a document whose history fits the cap. *)
Lemma update_price_sequence symbol ps :
  0 < H ->
  forall w d h,
  (length h <= Z.to_nat H)%nat ->
  stored cfg w symbol = JDict d ->
  dict_get "price_history" d = Some (JList h) ->
  exists w' d',
    for_each ps (update_price cfg clock symbol) w = (Ok tt, w') /\
    stored cfg w' symbol = JDict d' /\
    dict_get "price_history" d'
      = Some (JList (most_recent (Z.to_nat H)
                       (h ++ samples_from clock (ticks w) ps))).
Proof.
  intros HH. induction ps as [|p ps IH]; intros w d h Hlen Hd Hh.
  - exists w, d. simpl. rewrite app_nil_r, most_recent_ge by done. done.
  - rewrite for_each_cons, (update_price_spec cfg clock _ _ _ _ _ Hd Hh).
    set (e := sample (clock (ticks w)) p).
    set (w1 := written cfg w symbol (updated cfg d h (clock (ticks w)) p) 1).
    destruct (IH w1 (dict_set "price_history" (JList (trimmed cfg (h ++ [e])))
                       (dict_set "current_price" (JInt p) d))
                 (trimmed cfg (h ++ [e])))
      as (w' & d' & Hrun & Hd' & Hh').
    + pose proof (length_trimmed cfg (h ++ [e]) HH). lia.
    + unfold w1. by rewrite stored_written.
    + apply dict_get_set_eq.
    + exists w', d'. split_and!; try done.
      rewrite Hh'. simpl. rewrite trimmed_pos by done.
      rewrite most_recent_app_trim, <- app_assoc. done.
Qed.

(** C2. For a configured symbol whose document [initialize] creates,
    the history holds one seed sample, and after every sequence of
    [update_price] calls (so after each call) all of them return, the
    history is the most recent [H] of the seed followed by the appended
    samples in call order, and its length is at most [H]. *)
Theorem history_bound symbol w :
  0 < H ->
  symbol ∈ map fst (TEAMS cfg) ->
  files w !! path symbol = None ->
  let w1 := exec (initialize cfg clock) w in
  exists seed,
    history_is cfg w1 symbol [seed] /\
    (exists symbol' t k,
       (symbol', t) ∈ TEAMS cfg /\ path symbol' = path symbol /\
       seed = sample (clock k) (starting_price t)) /\
    forall ps,
      let calls := for_each ps (update_price cfg clock symbol) in
      let retained :=
        most_recent (Z.to_nat H) (seed :: samples_from clock (ticks w1) ps) in
      run calls w1 = Ok tt /\
      history_is cfg (exec calls w1) symbol retained /\
      Z.of_nat (length retained) <= H.
Proof.
  intros HH Hin Hnone w1.
  destruct (initialize_spec w) as (w' & Hrun & Hsc & Hkeep & Hall & Hnew).
  assert (w1 = w') as -> by (unfold w1, exec; by rewrite Hrun).
  destruct (Hall symbol Hin) as [f Hf].
  destruct (Hnew _ _ Hnone Hf) as (s & t & k & Hs & Hp & ->).
  assert (stored cfg w' symbol = seeded s t (clock k)) as Hd.
  { unfold stored. by rewrite Hf. }
  exists (sample (clock k) (starting_price t)). split_and!.
  - by eapply history_is_dict.
  - eauto 10.
  - intros ps calls retained.
    destruct (update_price_sequence symbol ps HH w' _
                [sample (clock k) (starting_price t)]
                ltac:(simpl; lia) Hd eq_refl)
      as (w2 & d2 & Hcalls & Hd2 & Hh2).
    unfold run, exec, calls. rewrite Hcalls. simpl. split_and!.
    + done.
    + by eapply history_is_dict.
    + unfold retained. rewrite length_most_recent. lia.
Qed.

(** C3. [initialize] is idempotent.  The first call returns; a second
    call, at any later clock reading, under any clock and with any
    activity scores, returns and leaves the world as it is, so every
    document is the one the first call left. *)
Theorem initialize_idempotent w clock' t' scores' :
  let w1 := exec (initialize cfg clock) w in
  let w1' := World (files w1) t' scores' in
  run (initialize cfg clock) w = Ok tt /\
  run (initialize cfg clock') w1' = Ok tt /\
  files (exec (initialize cfg clock') w1') = files w1 /\
  exec (initialize cfg clock) w1 = w1.
Proof.
  intros w1 w1'.
  destruct (initialize_spec w) as (w' & Hrun & Hsc & Hkeep & Hall & Hnew).
  assert (w1 = w') as E by (unfold w1, exec; by rewrite Hrun).
  rewrite E. unfold w1'. rewrite E. clear w1 w1' E.
  unfold run, exec. rewrite Hrun, !initialize_noop by done. done.
Qed.

End InitializeProperties.

(** ** Unreadable documents *)

Section CorruptProperties.

Variable cfg : config.
Variable clock : nat -> string.

Local Notation "'path'" := (_get_stock_file cfg).

Lemma stored_corrupt w symbol symbol' :
  corrupt cfg w symbol -> path symbol' = path symbol ->
  stored cfg w symbol' = JNull.
Proof. unfold stored. intros [E|E] ->; by rewrite E. Qed.

Lemma corrupt_settled w symbol symbol' :
  corrupt cfg w symbol -> path symbol' = path symbol ->
  settled cfg w symbol'.
Proof.
  intros Hc Hp e (f & E & He). rewrite Hp in E.
  destruct Hc as [E'|E']; rewrite E' in E; by injection E as <-.
Qed.

Lemma get_all_stocks_spec w :
  (forall s, s ∈ map fst (TEAMS cfg) -> settled cfg w s) ->
  get_all_stocks cfg w =
    (Ok (filter (fun v => truthy v)
           (map (stored cfg w) (map fst (TEAMS cfg)))), w).
Proof.
  unfold get_all_stocks.
  match goal with |- context [for_fold _ _ ?b] => set (body := b) end.
  generalize (map fst (TEAMS cfg)) as keys. intros keys Hdec.
  rewrite <- (app_nil_l (filter _ _)).
  generalize (@nil json) as acc.
  induction keys as [|k keys IH]; intros acc.
  - simpl. unfold ret. by rewrite filter_nil, app_nil_r.
  - rewrite for_fold_cons.
    assert (body k acc w =
            (Ok (if truthy (stored cfg w k) then acc ++ [stored cfg w k]
                 else acc), w)) as ->.
    { unfold body, bind. rewrite read_stock_data_spec by (apply Hdec; by left).
      by destruct (truthy _). }
    rewrite IH by (intros s Hs; apply Hdec; by right).
    simpl. rewrite filter_cons.
    destruct (truthy (stored cfg w k)); simpl; [|done].
    by rewrite <- app_assoc.
Qed.

(** The failures that [_read_stock_data] catches.  When the load of the
    document of a symbol raises [JSONDecodeError] or [IOError],
    [get_price] and [get_stock_info] return [None] for it and raise
    nothing; and when the load of no configured file raises an
    exception that is not caught, [get_all_stocks] returns, in
    configuration order, the documents of the configured symbols with
    another file that are readable. *)
Lemma corrupt_document_reads_as_missing symbol w :
  corrupt cfg w symbol ->
  get_price cfg symbol w = (Ok JNull, w) /\
  get_stock_info cfg symbol w = (Ok JNull, w) /\
  ((forall s, s ∈ map fst (TEAMS cfg) -> settled cfg w s) ->
   get_all_stocks cfg w =
     (Ok (filter (fun v => truthy v)
            (map (stored cfg w)
               (filter (fun k => path k <> path symbol)
                  (map fst (TEAMS cfg))))), w)).
Proof.
  intros Hc.
  assert (settled cfg w symbol) as Hdec by by eapply corrupt_settled.
  split_and!.
  - rewrite get_price_spec by done.
    by rewrite (stored_corrupt w symbol symbol).
  - unfold get_stock_info. rewrite read_stock_data_spec by done.
    by rewrite (stored_corrupt w symbol symbol).
  - intros Hall. rewrite get_all_stocks_spec by done. do 2 f_equal.
    clear Hall.
    induction (map fst (TEAMS cfg)) as [|k keys IH]; [done|].
    simpl. rewrite !filter_cons.
    destruct (decide (path k <> path symbol)) as [Hne|He].
    + simpl. rewrite filter_cons. by rewrite IH.
    + apply dec_stable in He.
      rewrite (stored_corrupt w symbol k) by done. simpl. done.
Qed.

(** C7, as the code has it, for the failures [_read_stock_data]
    catches.  When the load of the document of a symbol raises
    [JSONDecodeError] or [IOError], [update_price] returns without
    writing: the world is unchanged, and the file still does not
    load. *)
Theorem update_price_keeps_corrupt symbol p w :
  corrupt cfg w symbol ->
  update_price cfg clock symbol p w = (Ok tt, w) /\
  corrupt cfg (exec (update_price cfg clock symbol p) w) symbol.
Proof.
  intros Hc.
  assert (settled cfg w symbol) as Hdec by by eapply corrupt_settled.
  assert (update_price cfg clock symbol p w = (Ok tt, w)) as E.
  { unfold update_price, bind. rewrite read_stock_data_spec by done.
    by rewrite (stored_corrupt w symbol symbol). }
  split; [done|]. unfold exec. by rewrite E.
Qed.

End CorruptProperties.

(** ** Activity scores *)

Section ActivityProperties.

Variable cfg : config.

Local Notation "'decay'" := (ACTIVITY_DECAY cfg).

Lemma dict_set_keys_incl {V} k (v : V) d x :
  x ∈ map fst (dict_set k v d) -> x = k \/ x ∈ map fst d.
Proof.
  induction d as [|[k0 v0] d IH]; simpl.
  - intros Hx. apply list_elem_of_singleton in Hx. by left.
  - destruct (String.eqb k k0) eqn:E; simpl; intros Hx.
    + apply elem_of_cons in Hx as [->|Hx]; [by left|].
      right. by right.
    + apply elem_of_cons in Hx as [->|Hx]; [right; by left|].
      destruct (IH Hx) as [->|Hd]; [by left|]. right. by right.
Qed.

Lemma dict_set_keys_NoDup {V} k (v : V) d :
  NoDup (map fst d) -> NoDup (map fst (dict_set k v d)).
Proof.
  induction d as [|[k0 v0] d IH]; simpl; intros Hnd.
  - apply NoDup_singleton.
  - apply NoDup_cons in Hnd as [Hk0 Hnd].
    destruct (String.eqb k k0) eqn:E; simpl.
    + apply String.eqb_eq in E. subst. by apply NoDup_cons.
    + apply String.eqb_neq in E. apply NoDup_cons. split; [|by apply IH].
      intros Hx. apply dict_set_keys_incl in Hx as [->|Hx]; done.
Qed.

Lemma dict_set_same {V} k (v : V) d :
  dict_get k d = Some v -> dict_set k v d = d.
Proof.
  induction d as [|[k0 v0] d IH]; simpl; [done|].
  destruct (String.eqb k k0) eqn:E.
  - apply String.eqb_eq in E. by intros [= ->]; subst.
  - intros Hg. by rewrite IH.
Qed.

(** The scores a fresh [MarketData] starts with. *)
Lemma zero_scores_spec :
  NoDup (map fst (zero_scores cfg)) /\
  forall k, dict_get k (zero_scores cfg) =
            if decide (k ∈ map fst (TEAMS cfg)) then Some (NInt 0) else None.
Proof.
  unfold zero_scores.
  assert (forall keys (d0 : list (string * num)),
    let d := foldl (fun d symbol => dict_set symbol (NInt 0) d) d0 keys in
    (NoDup (map fst d0) -> NoDup (map fst d)) /\
    forall k, dict_get k d =
              if decide (k ∈ keys) then Some (NInt 0) else dict_get k d0)
    as Hgen.
  { induction keys as [|k0 keys IH]; intros d0; simpl.
    - split; [done|]. intros k. destruct (decide (k ∈ [])) as [Hk|]; [|done].
      inversion Hk.
    - destruct (IH (dict_set k0 (NInt 0) d0)) as [Hnd Hget]. split.
      + intros Hd0. by apply Hnd, dict_set_keys_NoDup.
      + intros k. rewrite Hget.
        destruct (decide (k ∈ keys)) as [Hk|Hk].
        * rewrite decide_True; [done|by right].
        * destruct (decide (k = k0)) as [->|Hne].
          -- rewrite decide_True by (by left). apply dict_get_set_eq.
          -- rewrite decide_False.
             ++ by apply dict_get_set_ne.
             ++ intros Hin. apply elem_of_cons in Hin as [?|?]; done. }
  destruct (Hgen (map fst (TEAMS cfg)) []) as [Hnd Hget].
  split; [apply Hnd; constructor | done].
Qed.

Lemma increment_activity_spec symbol fs t scores z :
  dict_get symbol scores = Some (NInt z) ->
  increment_activity symbol (World fs t scores) =
    (Ok tt, World fs t (dict_set symbol (NInt (z + 1)) scores)).
Proof.
  intros Hg. unfold increment_activity, bind, get_scores, score_item. simpl.
  rewrite Hg. rewrite bool_decide_true by eauto. simpl. by rewrite Hg.
Qed.

Lemma increment_activity_unknown symbol w :
  dict_get symbol (activity_scores w) = None ->
  increment_activity symbol w = (Ok tt, w).
Proof.
  intros Hg. unfold increment_activity, bind, get_scores. simpl.
  rewrite Hg. rewrite bool_decide_false; [done|]. by intros [? ?].
Qed.

Lemma increment_activity_repeat symbol n fs t scores z :
  dict_get symbol scores = Some (NInt z) ->
  repeat_call n (increment_activity symbol) (World fs t scores) =
    (Ok tt, World fs t (dict_set symbol (NInt (z + Z.of_nat n)) scores)).
Proof.
  revert scores z. induction n as [|n IH]; intros scores z Hg.
  - simpl. unfold ret. rewrite Z.add_0_r. by rewrite dict_set_same.
  - simpl repeat_call. unfold bind at 1.
    rewrite (increment_activity_spec _ _ _ _ _ Hg).
    rewrite (IH _ (z + 1)) by apply dict_get_set_eq.
    rewrite dict_set_set. do 4 f_equal. lia.
Qed.

(** The loop of [decay_activity] over distinct keys whose products
    are defined. *)
Lemma decay_loop fs t keys :
  NoDup keys ->
  forall scores,
  (forall k, k ∈ keys ->
     exists x v, dict_get k scores = Some x /\ py_mul x decay = Ok v) ->
  exists scores',
    for_each keys (fun symbol =>
        v <~ score_item symbol ;;
        v' <~ lift (py_mul v decay) ;;
        set_score_item symbol v')%py (World fs t scores)
      = (Ok tt, World fs t scores') /\
    (forall k x v, k ∈ keys -> dict_get k scores = Some x ->
       py_mul x decay = Ok v -> dict_get k scores' = Some v) /\
    (forall k, k ∉ keys -> dict_get k scores' = dict_get k scores).
Proof.
  match goal with |- context [for_each _ ?b] => set (body := b) end.
  induction keys as [|k0 keys IH]; intros Hnd scores Hall.
  - exists scores. split_and!; try done. intros k x v Hk. inversion Hk.
  - apply NoDup_cons in Hnd as [Hk0 Hnd].
    destruct (Hall k0) as (x0 & v0 & Hx0 & Hv0); [by left|].
    rewrite for_each_cons.
    assert (body k0 (World fs t scores)
            = (Ok tt, World fs t (dict_set k0 v0 scores))) as ->.
    { unfold body, bind, score_item, lift, set_score_item. simpl.
      rewrite Hx0, Hv0. done. }
    destruct (IH Hnd (dict_set k0 v0 scores)) as (scores' & Hrun & Hin & Hout).
    { intros k Hk. destruct (Hall k) as (x & v & Hx & Hv); [by right|].
      exists x, v. split; [|done].
      rewrite dict_get_set_ne; [done|]. intros ->. done. }
    exists scores'. split_and!; [done| |].
    + intros k x v Hk Hx Hv. apply elem_of_cons in Hk as [->|Hk].
      * rewrite Hout by done. rewrite dict_get_set_eq. congruence.
      * apply (Hin k x v); [done| |done].
        rewrite dict_get_set_ne; [done|]. intros ->. done.
    + intros k Hk. apply not_elem_of_cons in Hk as [Hne Hk].
      rewrite Hout by done. by apply dict_get_set_ne.
Qed.

Lemma py_mul_zero_defined : exists v, py_mul (NInt 0) decay = Ok v.
Proof. destruct decay as [z|f]; simpl; eauto. Qed.

(** C9. For a configured symbol of a fresh [MarketData], [n] calls of
    [increment_activity] return and leave the score [n]; and when the
    product [n * ACTIVITY_DECAY] is defined, with value [v], one call of
    [decay_activity] after them returns and leaves the score [v]. *)
Theorem activity_increment_then_decay symbol n fs t :
  symbol ∈ map fst (TEAMS cfg) ->
  let w0 := __init__ cfg fs t in
  let increments := repeat_call n (increment_activity symbol) in
  let wn := exec increments w0 in
  run (get_activity_score symbol) w0 = Ok (NInt 0) /\
  run increments w0 = Ok tt /\
  run (get_activity_score symbol) wn = Ok (NInt (Z.of_nat n)) /\
  forall v, py_mul (NInt (Z.of_nat n)) decay = Ok v ->
    run (decay_activity cfg) wn = Ok tt /\
    run (get_activity_score symbol) (exec (decay_activity cfg) wn) = Ok v.
Proof.
  intros Hin w0 increments wn.
  destruct zero_scores_spec as [Hnd Hget].
  assert (dict_get symbol (zero_scores cfg) = Some (NInt 0)) as H0.
  { rewrite Hget. by rewrite decide_True. }
  pose proof (increment_activity_repeat symbol n fs t _ _ H0) as Hrep.
  rewrite Z.add_0_l in Hrep.
  set (sn := dict_set symbol (NInt (Z.of_nat n)) (zero_scores cfg)) in *.
  assert (wn = World fs t sn) as ->.
  { unfold wn, exec, increments, w0, __init__. by rewrite Hrep. }
  split_and!.
  - unfold run, get_activity_score, bind, get_scores, w0, __init__. simpl.
    by rewrite H0.
  - unfold run, increments, w0, __init__. by rewrite Hrep.
  - unfold run, get_activity_score, bind, get_scores. simpl.
    unfold sn. by rewrite dict_get_set_eq.
  - intros v Hv.
    assert (map fst sn = map fst (zero_scores cfg)) as Hkeys.
    { apply dict_set_keys_present. eauto. }
    destruct (decay_loop fs t (map fst sn)) with (scores := sn)
      as (scores' & Hrun & Hmul & _).
    { by rewrite Hkeys. }
    { intros k Hk. destruct (decide (k = symbol)) as [->|Hne].
      - exists (NInt (Z.of_nat n)), v. split; [|done].
        apply dict_get_set_eq.
      - destruct py_mul_zero_defined as [v0 Hv0].
        exists (NInt 0), v0. split; [|done].
        unfold sn. rewrite dict_get_set_ne by done.
        rewrite Hget, decide_True; [done|].
        rewrite Hkeys in Hk.
        apply dict_get_is_Some_keys in Hk. rewrite Hget in Hk.
        destruct (decide (k ∈ map fst (TEAMS cfg))); [done|].
        by destruct Hk. }
    assert (decay_activity cfg (World fs t sn) = (Ok tt, World fs t scores'))
      as Hdecay.
    { unfold decay_activity, bind at 1, get_scores. simpl. apply Hrun. }
    unfold run, exec. rewrite Hdecay. simpl. split; [done|].
    unfold get_activity_score, bind, get_scores. simpl.
    rewrite (Hmul symbol (NInt (Z.of_nat n)) v); [done| |by apply dict_get_set_eq|done].
    rewrite Hkeys. apply dict_get_is_Some_keys. eauto.
Qed.

End ActivityProperties.

(** ** The store evaluated on the sample configurations *)

Section Evaluation.

Import Sample.

(** The scenario of the design document: STMP seeded at 100 under a cap
    of 5, then five updates; the seed sample is evicted. *)
Example scenario_five_updates :
  let w1 := exec (initialize cfg5 clock) w_fresh in
  let w2 := exec (for_each [101; 99; 102; 103; 98]
                    (update_price cfg5 clock "STMP")) w1 in
  (exists h, history_is cfg5 w2 "STMP" h /\
     prices_of (JList h) = [JInt 101; JInt 99; JInt 102; JInt 103; JInt 98]) /\
  run (get_price cfg5 "STMP") w2 = Ok (JInt 98).
Proof.
  split; [eexists; split|]; vm_compute; reflexivity.
Qed.

(** Two updates that leave the price at 100 still add two samples. *)
Example repeated_unchanged_price :
  let w2 := exec (for_each [100; 100] (update_price cfg5 clock "STMP"))
              w_stmp in
  exists h, history_is cfg5 w2 "STMP" h /\
            prices_of (JList h) = [JInt 100; JInt 100; JInt 100] /\
            NoDup h.
Proof.
  eexists. split_and!; [vm_compute; reflexivity | vm_compute; reflexivity |].
  repeat (apply NoDup_cons; split;
          [intros Hin; repeat (apply elem_of_cons in Hin as [Hin|Hin];
                               [discriminate|]);
           inversion Hin|]).
  apply NoDup_nil_2.
Qed.

Lemma stmp_configured : "STMP" ∈ map fst (TEAMS cfg5).
Proof. simpl. by left. Qed.

Lemma w_stmp_readable : readable cfg5 w_stmp "STMP".
Proof. eexists. split; vm_compute; reflexivity. Qed.

Lemma w_full_readable : readable cfg2 w_full "STMP".
Proof. eexists. split; vm_compute; reflexivity. Qed.

Lemma w_bad_corrupt : corrupt cfg2 w_bad "STMP".
Proof. left. vm_compute. reflexivity. Qed.

(** C1 at STMP, price 101. *)
Lemma update_price_consistent_witness :
  let w' := exec (update_price cfg5 clock "STMP" 101) w_stmp in
  (0 <= PRICE_HISTORY_MAX cfg5 /\
   readable cfg5 w_stmp "STMP" /\
   update_price cfg5 clock "STMP" 101 w_stmp = (Ok tt, w')) /\
  run (get_price cfg5 "STMP") w' = Ok (JInt 101) /\
  exists history e,
    history_is cfg5 w' "STMP" history /\
    last history = Some e /\
    getitem e "price" = Ok (JInt 101).
Proof.
  intros w'.
  assert (0 <= PRICE_HISTORY_MAX cfg5) as H1 by (simpl; lia).
  assert (update_price cfg5 clock "STMP" 101 w_stmp = (Ok tt, w')) as H3
    by (vm_compute; reflexivity).
  split; [by split_and!; [|apply w_stmp_readable|]|].
  exact (update_price_consistent cfg5 clock "STMP" 101 w_stmp w' H1
           w_stmp_readable H3).
Defined.

(** C2 at STMP, created by [initialize] in a store without files. *)
Lemma history_bound_witness :
  (0 < PRICE_HISTORY_MAX cfg5 /\
   "STMP" ∈ map fst (TEAMS cfg5) /\
   files w_fresh !! _get_stock_file cfg5 "STMP" = None) /\
  let w1 := exec (initialize cfg5 clock) w_fresh in
  exists seed,
    history_is cfg5 w1 "STMP" [seed] /\
    (exists symbol' t k,
       (symbol', t) ∈ TEAMS cfg5 /\
       _get_stock_file cfg5 symbol' = _get_stock_file cfg5 "STMP" /\
       seed = sample (clock k) (starting_price t)) /\
    forall ps,
      let calls := for_each ps (update_price cfg5 clock "STMP") in
      let retained :=
        most_recent (Z.to_nat (PRICE_HISTORY_MAX cfg5))
          (seed :: samples_from clock (ticks w1) ps) in
      run calls w1 = Ok tt /\
      history_is cfg5 (exec calls w1) "STMP" retained /\
      Z.of_nat (length retained) <= PRICE_HISTORY_MAX cfg5.
Proof.
  assert (0 < PRICE_HISTORY_MAX cfg5) as H1 by (simpl; lia).
  assert (files w_fresh !! _get_stock_file cfg5 "STMP" = None) as H3
    by (vm_compute; reflexivity).
  split; [by split_and!; [|apply stmp_configured|]|].
  exact (history_bound cfg5 clock "STMP" w_fresh H1 stmp_configured H3).
Defined.

(** C4 at STMP under a cap of 2.  The history holds two samples;
    [reset_prices] returns and leaves three, one more than the cap. *)
Theorem reset_prices_exceeds_cap :
  let w' := exec (reset_prices cfg2 clock) w_full in
  (exists h, history_is cfg2 w_full "STMP" h /\
             Z.of_nat (length h) <= PRICE_HISTORY_MAX cfg2) /\
  run (reset_prices cfg2 clock) w_full = Ok tt /\
  (exists h', history_is cfg2 w' "STMP" h' /\
              PRICE_HISTORY_MAX cfg2 < Z.of_nat (length h')).
Proof.
  split_and!.
  - eexists. split; [vm_compute; reflexivity | simpl; lia].
  - vm_compute. reflexivity.
  - eexists. split; [vm_compute; reflexivity | simpl; lia].
Qed.

(** C5 fails at STMP with the new price [-5]: the price is 100 before
    the update, the update returns, and the price is negative after. *)
Lemma update_price_negative_counterexample :
  let w' := exec (update_price cfg5 clock "STMP" (-5)) w_stmp in
  price_nonneg cfg5 w_stmp "STMP" /\
  run (update_price cfg5 clock "STMP" (-5)) w_stmp = Ok tt /\
  ~ price_nonneg cfg5 w' "STMP".
Proof.
  split_and!.
  - exists 100. split; [vm_compute; reflexivity | lia].
  - vm_compute. reflexivity.
  - intros (c & Hc & Hpos). vm_compute in Hc.
    injection Hc as <-. lia.
Qed.

(** C5, as the code has it, at STMP with the new price [-5]. *)
Lemma update_price_stores_given_price_witness :
  let w' := exec (update_price cfg5 clock "STMP" (-5)) w_stmp in
  (readable cfg5 w_stmp "STMP" /\
   update_price cfg5 clock "STMP" (-5) w_stmp = (Ok tt, w')) /\
  run (get_price cfg5 "STMP") w' = Ok (JInt (-5)) /\
  (price_nonneg cfg5 w' "STMP" <-> 0 <= -5).
Proof.
  intros w'.
  assert (update_price cfg5 clock "STMP" (-5) w_stmp = (Ok tt, w')) as H2
    by (vm_compute; reflexivity).
  split; [by split; [apply w_stmp_readable|]|].
  exact (update_price_stores_given_price cfg5 clock "STMP" (-5) w_stmp w'
           w_stmp_readable H2).
Defined.

(** The caught failures at STMP, whose file is not JSON, next to
    GEAR. *)
Lemma corrupt_document_reads_as_missing_witness :
  corrupt cfg2 w_bad "STMP" /\
  get_price cfg2 "STMP" w_bad = (Ok JNull, w_bad) /\
  get_stock_info cfg2 "STMP" w_bad = (Ok JNull, w_bad) /\
  get_all_stocks cfg2 w_bad = (Ok [doc gear "GEAR" 250 [250]], w_bad).
Proof.
  split; [apply w_bad_corrupt|].
  destruct (corrupt_document_reads_as_missing cfg2 "STMP" w_bad w_bad_corrupt)
    as (Hp & Hi & Ha).
  split_and!; [exact Hp | exact Hi |].
  rewrite Ha; [vm_compute; reflexivity|].
  intros s Hs. simpl in Hs.
  repeat (apply elem_of_cons in Hs as [->|Hs];
          [intros e (f & Hf & He); vm_compute in Hf;
           injection Hf as <-; discriminate|]).
  inversion Hs.
Defined.

(** C6 at STMP, whose file exists and is not UTF-8 text, next to the
    readable document of GEAR.  The load raises [UnicodeDecodeError],
    which [_read_stock_data] does not catch: [get_price] and
    [get_stock_info] raise it instead of returning [None], and
    [get_all_stocks] raises it instead of returning the document of
    GEAR. *)
Theorem undecodable_document_raises :
  files w_cut !! _get_stock_file cfg2 "STMP" = Some Undecodable /\
  readable cfg2 w_cut "GEAR" /\
  get_price cfg2 "STMP" w_cut = (Raise UnicodeDecodeError, w_cut) /\
  get_stock_info cfg2 "STMP" w_cut = (Raise UnicodeDecodeError, w_cut) /\
  get_all_stocks cfg2 w_cut = (Raise UnicodeDecodeError, w_cut).
Proof.
  split_and!; try (vm_compute; reflexivity).
  eexists. split; vm_compute; reflexivity.
Qed.

(** C7 fails at STMP, whose file is not JSON: the update returns, and
    the file still holds no document. *)
Lemma update_price_corrupt_counterexample :
  let w' := exec (update_price cfg2 clock "STMP" 101) w_bad in
  corrupt cfg2 w_bad "STMP" /\
  run (update_price cfg2 clock "STMP" 101) w_bad = Ok tt /\
  ~ (exists v, files w' !! _get_stock_file cfg2 "STMP" = Some (Parsed v)).
Proof.
  split_and!.
  - apply w_bad_corrupt.
  - vm_compute. reflexivity.
  - intros (v & Hv). vm_compute in Hv. discriminate.
Qed.

(** C7, as the code has it, at STMP. *)
Lemma update_price_keeps_corrupt_witness :
  corrupt cfg2 w_bad "STMP" /\
  update_price cfg2 clock "STMP" 101 w_bad = (Ok tt, w_bad) /\
  corrupt cfg2 (exec (update_price cfg2 clock "STMP" 101) w_bad) "STMP".
Proof.
  split; [apply w_bad_corrupt|].
  exact (update_price_keeps_corrupt cfg2 clock "STMP" 101 w_bad w_bad_corrupt).
Defined.

(** C8 fails at the limit [0]: the most recent zero samples are none,
    and the code returns the two samples of the history. *)
Lemma get_price_history_zero_counterexample :
  let h := map (sample "2023-12-31T23:59:59") [100; 150] in
  readable cfg2 w_full "STMP" /\
  history_is cfg2 w_full "STMP" h /\
  run (get_price_history cfg2 "STMP" (Some 0)) w_full = Ok (JList h) /\
  run (get_price_history cfg2 "STMP" (Some 0)) w_full
    <> Ok (JList (most_recent (Z.to_nat 0) h)).
Proof.
  split_and!.
  - apply w_full_readable.
  - vm_compute. reflexivity.
  - vm_compute. reflexivity.
  - intros Heq. vm_compute in Heq. discriminate.
Qed.

(** C8, as the code has it, at STMP with a history of two samples. *)
Lemma get_price_history_limit_witness :
  let h := map (sample "2023-12-31T23:59:59") [100; 150] in
  (readable cfg2 w_full "STMP" /\ history_is cfg2 w_full "STMP" h) /\
  run (get_price_history cfg2 "STMP" None) w_full = Ok (JList h) /\
  run (get_price_history cfg2 "STMP" (Some 0)) w_full = Ok (JList h) /\
  run (get_price_history cfg2 "STMP" (Some 1)) w_full
    = Ok (JList [sample "2023-12-31T23:59:59" 150]) /\
  run (get_price_history cfg2 "STMP" (Some 7)) w_full = Ok (JList h).
Proof.
  intros h.
  assert (history_is cfg2 w_full "STMP" h) as Hh by (vm_compute; reflexivity).
  split; [by split; [apply w_full_readable|]|].
  destruct (get_price_history_limit cfg2 "STMP" w_full h w_full_readable Hh)
    as (Hnone & Hzero & Hpos).
  split_and!; [exact Hnone | exact Hzero | |].
  - destruct (Hpos 1 ltac:(lia)) as [-> _]. reflexivity.
  - destruct (Hpos 7 ltac:(lia)) as [-> Hall].
    rewrite Hall; [reflexivity | simpl; lia].
Defined.

(** C9 at STMP with three increments and the decay factor 0.9: the
    score is 3, then the double nearest to 2.7. *)
Lemma activity_increment_then_decay_witness :
  let increments := repeat_call 3 (increment_activity "STMP") in
  let w3 := exec increments w_fresh in
  "STMP" ∈ map fst (TEAMS cfg5) /\
  run (get_activity_score "STMP") w3 = Ok (NInt 3) /\
  run (get_activity_score "STMP") (exec (decay_activity cfg5) w3)
    = Ok (NFloat (S754_finite false 6079859496950170 (-51))).
Proof.
  intros increments w3. split; [apply stmp_configured|].
  destruct (activity_increment_then_decay cfg5 "STMP" 3 ∅ 0 stmp_configured)
    as (_ & _ & Hn & Hd).
  split; [exact Hn|].
  exact (proj2 (Hd (NFloat (S754_finite false 6079859496950170 (-51)))
                   eq_refl)).
Defined.

(** C10 at STMP with the new price equal to the stored one. *)
Lemma update_price_appends_one_witness :
  let h := [sample "2023-12-31T23:59:59" 100] in
  let e := sample (clock 0) 100 in
  let w' := exec (update_price cfg5 clock "STMP" 100) w_stmp in
  (0 < PRICE_HISTORY_MAX cfg5 /\
   readable cfg5 w_stmp "STMP" /\
   history_is cfg5 w_stmp "STMP" h) /\
  run (get_price cfg5 "STMP") w_stmp = Ok (JInt 100) /\
  run (update_price cfg5 clock "STMP" 100) w_stmp = Ok tt /\
  history_is cfg5 w' "STMP" (h ++ [e]).
Proof.
  intros h e w'.
  assert (0 < PRICE_HISTORY_MAX cfg5) as H1 by (simpl; lia).
  assert (history_is cfg5 w_stmp "STMP" h) as Hh by (vm_compute; reflexivity).
  split; [by split_and!; [|apply w_stmp_readable|]|].
  split; [vm_compute; reflexivity|].
  destruct (update_price_appends_one cfg5 clock "STMP" 100 w_stmp h H1
              w_stmp_readable Hh) as (Hrun & Hnew & _).
  split; [exact Hrun | exact Hnew].
Defined.

End Evaluation.

(** ** More of the store: symbols without a readable document,
    failures, and what an update leaves alone *)

Section StoreEdgeProperties.

Variable cfg : config.
Variable clock : nat -> string.

Local Notation "'path'" := (_get_stock_file cfg).

Lemma not_readable_stored w symbol :
  ~ readable cfg w symbol <-> truthy (stored cfg w symbol) = false.
Proof.
  rewrite readable_stored. destruct (truthy _); split; done.
Qed.

Lemma slice_from_nonneg {A} (k : Z) (l : list A) :
  0 <= k -> slice_from k l = drop (Z.to_nat k) l.
Proof.
  intros Hk. unfold slice_from.
  destruct (Z.ltb_spec k 0); [lia|done].
Qed.

Lemma no_data_stored w symbol :
  no_data cfg w symbol ->
  settled cfg w symbol /\ truthy (stored cfg w symbol) = false.
Proof.
  intros (data & Hrun & Ht).
  apply reader_returns_settled in Hrun as [Hdec ->]. done.
Qed.

(** X1. A symbol for which the reader returns no data (there is no
    file, or the load raises one of the two exceptions that are caught,
    or the file loads as a false value) is absent for every operation
    on one symbol: [get_price] returns [None], [get_price_history]
    returns the empty list for every limit, and [update_price] returns
    without creating or writing anything. *)
Theorem symbol_without_data_is_absent symbol w :
  no_data cfg w symbol ->
  get_price cfg symbol w = (Ok JNull, w) /\
  (forall limit,
     get_price_history cfg symbol limit w = (Ok (JList []), w)) /\
  (forall p, update_price cfg clock symbol p w = (Ok tt, w)).
Proof.
  intros Hn. apply no_data_stored in Hn as [Hdec Hn]. split_and!.
  - by rewrite get_price_spec, Hn.
  - intros limit. by rewrite get_price_history_spec, Hn.
  - intros p. unfold update_price, bind.
    by rewrite read_stock_data_spec, Hn.
Qed.

(** X2. [update_price] raises before it writes.  On a file whose load
    raises an exception that is not caught (one that is not UTF-8 text,
    say) it raises that exception; on a readable document of which no
    history can be read it raises [TypeError], [KeyError] or
    [AttributeError]; in both cases the world is as it was: no file is
    written and no clock reading taken. *)
Theorem update_price_raises_before_writing symbol p w :
  (exists e0, load_escapes cfg w symbol e0) \/ readable cfg w symbol ->
  ~ (exists h, history_is cfg w symbol h) ->
  exists e,
    update_price cfg clock symbol p w = (Raise e, w) /\
    (forall e0, load_escapes cfg w symbol e0 -> e = e0) /\
    (readable cfg w symbol ->
     e = TypeError \/ e = KeyError \/ e = AttributeError).
Proof.
  intros [[e0 Hu]|Hr] Hno.
  - exists e0. split_and!.
    + unfold update_price, bind. by rewrite (read_stock_data_escapes _ _ _ e0).
    + intros e1 (f1 & E1 & He1). destruct Hu as (f & E & He). congruence.
    + intros Hr. apply readable_stored, truthy_settled in Hr.
      by destruct (Hr e0).
  - pose proof Hr as Ht. apply readable_stored in Ht.
    pose proof (truthy_settled cfg symbol w Ht) as Hdec.
    assert (exists e, update_price cfg clock symbol p w = (Raise e, w) /\
                      (e = TypeError \/ e = KeyError \/ e = AttributeError))
      as (e & He & Hclass).
    { unfold update_price, bind.
      rewrite read_stock_data_spec, Ht by done. simpl.
      destruct (stored cfg w symbol) as [| | | | |d] eqn:Hd; simpl;
        try (eexists; split; [reflexivity|by left]).
      unfold lift. simpl. rewrite dict_get_set_ne by done.
      destruct (dict_get "price_history" d) as [v|] eqn:Hg; simpl.
      - destruct v as [| | | |h|]; simpl;
          try (eexists; split; [reflexivity|by right; right]).
        exfalso. apply Hno. exists h. apply history_is_stored; eauto.
      - eexists. split; [reflexivity|by right; left]. }
    exists e. split_and!; [done| |done].
    intros e0 Hu. by destruct (Hdec e0).
Qed.

(** X3. What a successful [update_price] on a readable document leaves
    alone: the activity scores, every other file, and every field of the
    document other than ['current_price'] and ['price_history']; it takes
    exactly one clock reading. *)
Theorem update_price_frame symbol p w w' :
  readable cfg w symbol ->
  update_price cfg clock symbol p w = (Ok tt, w') ->
  activity_scores w' = activity_scores w /\
  ticks w' = S (ticks w) /\
  (forall q, q <> path symbol -> files w' !! q = files w !! q) /\
  exists d d',
    stored cfg w symbol = JDict d /\
    stored cfg w' symbol = JDict d' /\
    forall k, k <> "current_price" -> k <> "price_history" ->
              dict_get k d' = dict_get k d.
Proof.
  intros Hr Hu.
  destruct (update_price_ok_inv cfg clock _ _ _ _ Hr Hu) as (d & h & Hd & Hh).
  rewrite (update_price_spec cfg clock _ _ _ _ _ Hd Hh) in Hu.
  injection Hu as <-. split_and!; try done.
  - intros q Hq. unfold written. simpl. by rewrite lookup_insert_ne.
  - exists d. eexists. split_and!; [done|by rewrite stored_written|].
    intros k Hk1 Hk2. by rewrite !dict_get_set_ne.
Qed.

(** X4. A negative limit does not fail and does not count from the end:
    for a readable document with history [h] and [l < 0],
    [get_price_history] returns [h] without its [-l] oldest samples. *)
Theorem get_price_history_negative_limit symbol w h l :
  readable cfg w symbol ->
  history_is cfg w symbol h ->
  l < 0 ->
  run (get_price_history cfg symbol (Some l)) w
    = Ok (JList (drop (Z.to_nat (- l)) h)).
Proof.
  intros Hr Hh Hl.
  apply history_is_stored in Hh as (d & Hd & Hg); [|done].
  apply readable_stored in Hr.
  unfold run.
  rewrite get_price_history_spec, Hr, Hd by by apply truthy_settled.
  simpl. rewrite Hg.
  destruct (Z.eqb_spec l 0); [lia|]. simpl.
  by rewrite slice_from_nonneg by lia.
Qed.

(** X5. [initialize] only adds.  Whatever the store, after the call
    the activity scores and every file that existed are as they were,
    and a file that has come to exist is the file of a configured
    symbol and holds a seeded document. *)
Theorem initialize_only_adds w :
  let w' := exec (initialize cfg clock) w in
  activity_scores w' = activity_scores w /\
  (forall q f, files w !! q = Some f -> files w' !! q = Some f) /\
  (forall q, files w !! q = None -> is_Some (files w' !! q) ->
     exists symbol t k,
       (symbol, t) ∈ TEAMS cfg /\ path symbol = q /\
       files w' !! q = Some (Parsed (seeded symbol t (clock k)))).
Proof.
  intros w'.
  destruct (initialize_spec cfg clock w)
    as (w1 & Hrun & Hsc & Hkeep & Hall & Hnew).
  assert (w' = w1) as -> by (unfold w', exec; by rewrite Hrun).
  split_and!; try done.
  intros q Hn [f Hf].
  destruct (Hnew q f Hn Hf) as (s & t & k & Hin & Hp & ->). eauto 10.
Qed.

End StoreEdgeProperties.

(** ** The files of the symbols *)

Section FileProperties.

Variable cfg : config.

Local Notation "'path'" := (_get_stock_file cfg).

Lemma elem_of_map {A B} (f : A -> B) (l : list A) y :
  y ∈ map f l <-> exists x, y = f x /\ x ∈ l.
Proof. exact (list_elem_of_fmap f l y). Qed.

Lemma list_ascii_of_string_app a b :
  list_ascii_of_string (a +:+ b)
  = list_ascii_of_string a ++ list_ascii_of_string b.
Proof. induction a as [|c a IH]; simpl; [done|]. by rewrite IH. Qed.

Lemma string_app_inj_r a b c : a +:+ c = b +:+ c -> a = b.
Proof.
  intros Heq. apply (f_equal list_ascii_of_string) in Heq.
  rewrite !list_ascii_of_string_app in Heq.
  apply app_inv_tail in Heq.
  rewrite <- (string_of_list_ascii_of_string a),
          <- (string_of_list_ascii_of_string b).
  by rewrite Heq.
Qed.

Lemma startswith_slash_json s :
  startswith_slash (s +:+ ".json") = startswith_slash s.
Proof. by destruct s. Qed.

(** X6. Symbols that do not start with a slash have files of their own:
    two such symbols with the same file are the same symbol. *)
Theorem get_stock_file_injective symbol1 symbol2 :
  startswith_slash symbol1 = false ->
  startswith_slash symbol2 = false ->
  path symbol1 = path symbol2 ->
  symbol1 = symbol2.
Proof.
  intros H1 H2. unfold _get_stock_file, path_join.
  rewrite !startswith_slash_json, H1, H2.
  destruct (_ || _)%bool; intros Heq.
  - apply String.app_inj in Heq. by apply string_app_inj_r in Heq.
  - do 2 apply String.app_inj in Heq. by apply string_app_inj_r in Heq.
Qed.

Lemma stock_files_NoDup :
  NoDup (map fst (TEAMS cfg)) ->
  (forall symbol, symbol ∈ map fst (TEAMS cfg) ->
     startswith_slash symbol = false) ->
  NoDup (stock_files cfg).
Proof.
  unfold stock_files. generalize (TEAMS cfg) as L.
  induction L as [|[s t] L IH]; simpl; intros Hnd Hrel; [constructor|].
  apply NoDup_cons in Hnd as [Hs Hnd]. apply NoDup_cons. split.
  - intros Hin. apply elem_of_map in Hin as ([s' t'] & Heq & Hin').
    simpl in Heq. apply get_stock_file_injective in Heq.
    + subst s'. apply Hs. apply elem_of_map. by exists (s, t').
    + apply Hrel. by left.
    + apply Hrel. right. apply elem_of_map. by exists (s', t').
  - apply IH; [done|]. intros s' Hs'. apply Hrel. by right.
Qed.

End FileProperties.

(** ** Resetting the prices *)

Section ResetProperties.

Variable cfg : config.
Variable clock : nat -> string.

Local Notation "'H'" := (PRICE_HISTORY_MAX cfg).
Local Notation "'path'" := (_get_stock_file cfg).

(** The loop of [reset_prices], when the configured symbols have files
    of their own and every readable document among them is a [dict]
    with a list under ['price_history'].  It stops at the first file
    whose load raises an exception that is not caught, if there is
    one. *)
Lemma reset_prices_loop w :
  NoDup (stock_files cfg) ->
  (forall s t, (s, t) ∈ TEAMS cfg -> truthy (stored cfg w s) = true ->
     exists d h, stored cfg w s = JDict d /\
                 dict_get "price_history" d = Some (JList h)) ->
  exists o w',
    reset_prices cfg clock w = (o, w') /\
    activity_scores w' = activity_scores w /\
    (forall q, q ∉ stock_files cfg -> files w' !! q = files w !! q) /\
    (forall s t, (s, t) ∈ TEAMS cfg -> truthy (stored cfg w s) = false ->
       files w' !! path s = files w !! path s) /\
    (forall s t d h, (s, t) ∈ TEAMS cfg -> stored cfg w s = JDict d ->
       dict_get "price_history" d = Some (JList h) ->
       stored cfg w' s = JDict d \/
       exists k, stored cfg w' s
                 = reset_doc d h (clock k) (starting_price t)) /\
    ((forall s t, (s, t) ∈ TEAMS cfg -> settled cfg w s) ->
     o = Ok tt /\
     forall s t d h, (s, t) ∈ TEAMS cfg -> stored cfg w s = JDict d ->
       dict_get "price_history" d = Some (JList h) ->
       exists k, stored cfg w' s
                 = reset_doc d h (clock k) (starting_price t)).
Proof.
  unfold reset_prices, stock_files.
  match goal with |- context [for_each _ ?b] => set (body := b) end.
  generalize (TEAMS cfg) as L.
  intros L. revert w. induction L as [|[s0 t0] L IH]; intros w Hnd Hwf.
  - exists (Ok tt), w.
    split_and!; [reflexivity | done | done
                | intros s t Hin; inversion Hin
                | intros s t d h Hin; inversion Hin
                | intros _; split; [done|intros s t d h Hin; inversion Hin]].
  - simpl in Hnd. apply NoDup_cons in Hnd as [Hs0 Hnd].
    rewrite for_each_cons.
    assert (forall s t, (s, t) ∈ L -> path s <> path s0) as Hne.
    { intros s t Hin Heq. apply Hs0. apply elem_of_map.
      exists (s, t). by split. }
    destruct (settled_or_escapes cfg w s0) as [Hdec0|[e0 Hun0]].
    2:{ assert (body (s0, t0) w = (Raise e0, w)) as ->.
        { unfold body, bind. by rewrite (read_stock_data_escapes _ _ _ e0). }
        exists (Raise e0), w.
        split_and!; try done.
        - intros; by left.
        - intros Hall. exfalso. by apply (Hall s0 t0 ltac:(by left) e0). }
    destruct (truthy (stored cfg w s0)) eqn:Ht.
    + destruct (Hwf s0 t0) as (d0 & h0 & Hd0 & Hh0); [by left|done|].
      set (w1 := written cfg w s0
                   (reset_doc d0 h0 (clock (ticks w)) (starting_price t0)) 1).
      assert (body (s0, t0) w = (Ok tt, w1)) as ->.
      { unfold body, bind. rewrite read_stock_data_spec, Ht, Hd0 by done.
        unfold lift. simpl. by rewrite dict_get_set_ne, Hh0. }
      assert (forall s t, (s, t) ∈ L ->
                files w1 !! path s = files w !! path s) as Hfile.
      { intros s t Hin. unfold w1, written. simpl.
        rewrite lookup_insert_ne; [done|]. intros Heq. by apply (Hne s t). }
      assert (forall s t, (s, t) ∈ L -> stored cfg w1 s = stored cfg w s)
        as Hsame.
      { intros s t Hin. unfold stored. by rewrite (Hfile s t Hin). }
      destruct (IH w1 Hnd)
        as (o & w' & Hrun & Hsc & Hout & Hskip & Hpart & Hfull).
      { intros s t Hin. rewrite (Hsame s t Hin). apply (Hwf s t). by right. }
      assert (stored cfg w' s0
              = reset_doc d0 h0 (clock (ticks w)) (starting_price t0))
        as Hs0doc.
      { unfold stored. rewrite (Hout (path s0) Hs0).
        unfold w1, written. simpl. by rewrite lookup_insert_eq. }
      exists o, w'. split_and!; try done.
      * intros q Hq. apply not_elem_of_cons in Hq as [Hq0 Hq].
        rewrite (Hout q Hq). unfold w1, written. simpl.
        by rewrite lookup_insert_ne.
      * intros s t Hin Hf. apply elem_of_cons in Hin as [[= -> ->]|Hin];
          [congruence|].
        rewrite (Hskip s t Hin) by by rewrite (Hsame s t Hin).
        by apply (Hfile s t).
      * intros s t d h Hin Hd Hh.
        apply elem_of_cons in Hin as [[= -> ->]|Hin].
        -- right. exists (ticks w).
           assert (d = d0) as -> by congruence.
           assert (h = h0) as -> by congruence. done.
        -- apply (Hpart s t d h Hin); [|done]. by rewrite (Hsame s t Hin).
      * intros Hall. destruct Hfull as [Ho Hdone].
        { intros s t Hin e (f & E & He). rewrite (Hfile s t Hin) in E.
          apply (Hall s t ltac:(by right) e). by exists f. }
        split; [done|]. intros s t d h Hin Hd Hh.
        apply elem_of_cons in Hin as [[= -> ->]|Hin].
        -- exists (ticks w).
           assert (d = d0) as -> by congruence.
           assert (h = h0) as -> by congruence. done.
        -- apply (Hdone s t d h Hin); [|done]. by rewrite (Hsame s t Hin).
    + assert (body (s0, t0) w = (Ok tt, w)) as ->.
      { unfold body, bind. by rewrite read_stock_data_spec, Ht by done. }
      destruct (IH w Hnd)
        as (o & w' & Hrun & Hsc & Hout & Hskip & Hpart & Hfull).
      { intros s t Hin. apply (Hwf s t). by right. }
      exists o, w'. split_and!; try done.
      * intros q Hq. apply not_elem_of_cons in Hq as [Hq0 Hq]. by apply Hout.
      * intros s t Hin Hf. apply elem_of_cons in Hin as [[= -> ->]|Hin].
        -- by apply Hout.
        -- by apply (Hskip s t).
      * intros s t d h Hin Hd Hh.
        apply elem_of_cons in Hin as [[= -> ->]|Hin].
        -- rewrite Hd in Ht. by destruct d.
        -- by apply (Hpart s t d h).
      * intros Hall. destruct Hfull as [Ho Hdone].
        { intros s t Hin. apply (Hall s t). by right. }
        split; [done|]. intros s t d h Hin Hd Hh.
        apply elem_of_cons in Hin as [[= -> ->]|Hin].
        -- rewrite Hd in Ht. by destruct d.
        -- by apply (Hdone s t d h).
Qed.

Lemma histories_readable_wf w :
  histories_readable cfg w ->
  forall s t, (s, t) ∈ TEAMS cfg -> truthy (stored cfg w s) = true ->
    exists d h, stored cfg w s = JDict d /\
                dict_get "price_history" d = Some (JList h).
Proof.
  intros Hall s t Hin Ht. apply readable_stored in Ht.
  destruct (Hall s) as [h Hh]; [|done|].
  { apply elem_of_map. by exists (s, t). }
  apply history_is_stored in Hh as (d & Hd & Hg); eauto.
Qed.

Lemma reader_returns_all_settled w :
  reader_returns cfg w ->
  forall s t, (s, t) ∈ TEAMS cfg -> settled cfg w s.
Proof.
  intros Hall s t Hin. destruct (Hall s) as [data Hd].
  { apply elem_of_map. by exists (s, t). }
  by apply reader_returns_settled in Hd as [? _].
Qed.

(** X7. [reset_prices], when the configured symbols have files of their
    own, the reader returns for each of them, and every readable
    document among them has a history: it returns; every configured
    symbol with a readable document gets its starting price as
    [current_price] and exactly one new sample at that price after its
    old history, which is not trimmed; a configured symbol without a
    readable document keeps its file as it is (none is created); files
    of other paths and the activity scores are left alone. *)
Theorem reset_prices_restores_starting_prices w :
  NoDup (stock_files cfg) ->
  reader_returns cfg w ->
  histories_readable cfg w ->
  let w' := exec (reset_prices cfg clock) w in
  run (reset_prices cfg clock) w = Ok tt /\
  activity_scores w' = activity_scores w /\
  (forall q, q ∉ stock_files cfg -> files w' !! q = files w !! q) /\
  (forall symbol t, (symbol, t) ∈ TEAMS cfg ->
     ~ readable cfg w symbol ->
     files w' !! path symbol = files w !! path symbol) /\
  (forall symbol t h, (symbol, t) ∈ TEAMS cfg ->
     readable cfg w symbol -> history_is cfg w symbol h ->
     run (get_price cfg symbol) w' = Ok (JInt (starting_price t)) /\
     exists k,
       history_is cfg w' symbol (h ++ [sample (clock k) (starting_price t)])).
Proof.
  intros Hnd Hret Hall w'.
  destruct (reset_prices_loop w Hnd (histories_readable_wf w Hall))
    as (o & w1 & Hrun & Hsc & Hout & Hskip & _ & Hfull).
  destruct (Hfull (reader_returns_all_settled w Hret)) as [-> Hdone].
  assert (w' = w1) as -> by (unfold w', exec; by rewrite Hrun).
  unfold run. rewrite Hrun. split_and!; try done.
  - intros s t Hin Hn. apply (Hskip s t Hin).
    by apply not_readable_stored.
  - intros s t h Hin Hr Hh.
    apply history_is_stored in Hh as (d & Hd & Hg); [|done].
    destruct (Hdone s t d h Hin Hd Hg) as [k Hk]. split.
    + rewrite get_price_spec, Hk by by eapply dict_settled.
      unfold reset_doc. rewrite truthy_dict_set. simpl.
      by rewrite dict_get_set_ne, dict_get_set_eq.
    + exists k. eapply history_is_dict; [done|]. unfold reset_doc.
      apply dict_get_set_eq.
Qed.

(** X8. The excess [reset_prices] leaves is gone with the next update:
    when the configured symbols have files of their own, every readable
    document among them has a history and the cap is positive, an
    [update_price] after a [reset_prices] on a configured symbol with a
    readable document returns, sets the price and leaves a history of
    at most [H] samples. *)
Theorem update_after_reset_within_cap symbol t p w :
  0 < H ->
  NoDup (stock_files cfg) ->
  histories_readable cfg w ->
  (symbol, t) ∈ TEAMS cfg ->
  readable cfg w symbol ->
  let w1 := exec (reset_prices cfg clock) w in
  let w2 := exec (update_price cfg clock symbol p) w1 in
  run (update_price cfg clock symbol p) w1 = Ok tt /\
  run (get_price cfg symbol) w2 = Ok (JInt p) /\
  exists h2, history_is cfg w2 symbol h2 /\ Z.of_nat (length h2) <= H.
Proof.
  intros HH Hnd Hall Hin Hr w1 w2.
  destruct (reset_prices_loop w Hnd (histories_readable_wf w Hall))
    as (o & w1' & Hrun & _ & _ & _ & Hpart & _).
  assert (w1 = w1') as -> by (unfold w1, exec; by rewrite Hrun).
  destruct (Hall symbol) as [h Hh]; [|done|].
  { apply elem_of_map. by exists (symbol, t). }
  apply history_is_stored in Hh as (d & Hd & Hg); [|done].
  assert (exists d1 h1, stored cfg w1' symbol = JDict d1 /\
                        dict_get "price_history" d1 = Some (JList h1))
    as (d1 & h1 & Hd1 & Hg1).
  { destruct (Hpart symbol t d h Hin Hd Hg) as [Hk|[k Hk]].
    - eauto.
    - unfold reset_doc in Hk. eexists _, _. split; [exact Hk|].
      apply dict_get_set_eq. }
  pose proof (update_price_spec cfg clock symbol p w1' _ _ Hd1 Hg1) as Hu.
  unfold w2, run, exec. rewrite Hu. simpl. split_and!.
  - done.
  - apply get_price_updated.
  - eexists. split; [apply history_is_updated|]. by apply length_trimmed.
Qed.

End ResetProperties.

(** ** A store without files, and all prices at once *)

Section WholeStoreProperties.

Variable cfg : config.
Variable clock : nat -> string.

Local Notation "'path'" := (_get_stock_file cfg).

Lemma filter_truthy_cons v l :
  truthy v = true ->
  filter (fun v => truthy v) (v :: l) = v :: filter (fun v => truthy v) l.
Proof. intros Ht. rewrite filter_cons. by rewrite Ht. Qed.

(** The loop of [initialize] when no configured symbol has a file and
    the configured symbols have files of their own. *)
Lemma initialize_fresh_loop w :
  NoDup (stock_files cfg) ->
  (forall s t, (s, t) ∈ TEAMS cfg -> files w !! path s = None) ->
  exists w',
    initialize cfg clock w = (Ok tt, w') /\
    (forall q, q ∉ stock_files cfg -> files w' !! q = files w !! q) /\
    (forall i s t, TEAMS cfg !! i = Some (s, t) ->
       stored cfg w' s = seeded s t (clock (ticks w + i))) /\
    filter (fun v => truthy v) (map (stored cfg w') (map fst (TEAMS cfg)))
    = imap (fun i st => seeded (fst st) (snd st) (clock (ticks w + i)))
        (TEAMS cfg).
Proof.
  unfold initialize, stock_files.
  match goal with |- context [for_each _ ?b] => set (body := b) end.
  generalize (TEAMS cfg) as L.
  intros L. revert w. induction L as [|[s0 t0] L IH]; intros w Hnd Hnone.
  - exists w. split_and!; [reflexivity | done | | done].
    intros i s t Hi. by rewrite lookup_nil in Hi.
  - simpl in Hnd. apply NoDup_cons in Hnd as [Hs0 Hnd].
    rewrite for_each_cons.
    set (w1 := written cfg w s0 (seeded s0 t0 (clock (ticks w))) 1).
    assert (body (s0, t0) w = (Ok tt, w1)) as ->.
    { unfold body, bind, path_exists. by rewrite (Hnone s0 t0) by by left. }
    assert (forall s t, (s, t) ∈ L -> path s <> path s0) as Hne.
    { intros s t Hin Heq. apply Hs0. apply elem_of_map.
      exists (s, t). by split. }
    destruct (IH w1 Hnd) as (w' & Hrun & Hout & Hdoc & Hall).
    { intros s t Hin. unfold w1, written. simpl.
      rewrite lookup_insert_ne; [apply (Hnone s t); by right|].
      intros Heq. by apply (Hne s t). }
    assert (stored cfg w' s0 = seeded s0 t0 (clock (ticks w + 0))) as Hs0doc.
    { unfold stored. rewrite (Hout (path s0) Hs0).
      unfold w1, written. simpl. rewrite lookup_insert_eq.
      by rewrite Nat.add_0_r. }
    exists w'. split_and!; [done| | |].
    + intros q Hq. apply not_elem_of_cons in Hq as [Hq0 Hq].
      rewrite (Hout q Hq). unfold w1, written. simpl.
      by rewrite lookup_insert_ne.
    + intros [|i] s t Hi; simpl in Hi.
      * by injection Hi as <- <-.
      * rewrite (Hdoc i s t Hi). do 2 f_equal. unfold w1, written. simpl. lia.
    + simpl. rewrite filter_truthy_cons by by rewrite Hs0doc.
      rewrite Hs0doc. f_equal. rewrite Hall. apply imap_ext.
      intros i st _. unfold w1, written. simpl. do 2 f_equal. lia.
Qed.

(** X9. [initialize] on a store where no configured symbol has a file
    yet, the configured symbols having files of their own: afterwards
    the [i]-th configured symbol has the document seeded from its team
    with the [i]-th clock reading, its price is its starting price, its
    history is the one seed sample, and [get_all_stocks] returns exactly
    these documents, one per configured symbol, in configuration
    order. *)
Theorem initialize_fresh_store w :
  NoDup (stock_files cfg) ->
  (forall symbol, symbol ∈ map fst (TEAMS cfg) ->
     files w !! path symbol = None) ->
  let w' := exec (initialize cfg clock) w in
  (forall i symbol t, TEAMS cfg !! i = Some (symbol, t) ->
     run (get_stock_info cfg symbol) w'
       = Ok (seeded symbol t (clock (ticks w + i))) /\
     run (get_price cfg symbol) w' = Ok (JInt (starting_price t)) /\
     history_is cfg w' symbol
       [sample (clock (ticks w + i)) (starting_price t)]) /\
  run (get_all_stocks cfg) w'
    = Ok (imap (fun i st => seeded (fst st) (snd st) (clock (ticks w + i)))
            (TEAMS cfg)).
Proof.
  intros Hnd Hnone w'.
  destruct (initialize_fresh_loop w Hnd) as (w1 & Hrun & _ & Hdoc & Hall).
  { intros s t Hin. apply Hnone. apply elem_of_map. by exists (s, t). }
  assert (w' = w1) as -> by (unfold w', exec; by rewrite Hrun).
  assert (forall i s t, TEAMS cfg !! i = Some (s, t) -> settled cfg w1 s)
    as Hdec.
  { intros i s t Hi. eapply dict_settled. exact (Hdoc i s t Hi). }
  split.
  - intros i s t Hi. pose proof (Hdoc i s t Hi) as Hd.
    pose proof (Hdec i s t Hi) as Hds. split_and!.
    + unfold run, get_stock_info. by rewrite read_stock_data_spec, Hd.
    + unfold run. by rewrite get_price_spec, Hd.
    + by eapply history_is_dict.
  - unfold run. rewrite get_all_stocks_spec, Hall; [done|].
    intros s Hs. apply elem_of_map in Hs as ([s' t] & -> & Hin).
    apply list_elem_of_lookup in Hin as [i Hi]. by apply (Hdec i s' t).
Qed.

Lemma get_price_world symbol w :
  get_price cfg symbol w = (run (get_price cfg symbol) w, w).
Proof.
  unfold run, get_price, bind. rewrite read_stock_data_cases.
  destruct (files w !! path symbol) as [f|]; [destruct (escaping f)|];
    try done; by destruct (truthy _).
Qed.

Lemma get_all_prices_fold w keys :
  (forall s, s ∈ keys -> exists c, run (get_price cfg s) w = Ok c) ->
  forall acc,
  exists prices,
    for_fold keys acc (fun symbol prices =>
        price <~ get_price cfg symbol ;;
        if is_not_None price then ret (dict_set symbol price prices)
        else ret prices)%py w = (Ok prices, w) /\
    forall s,
      dict_get s prices =
        match run (get_price cfg s) w with
        | Ok c => if bool_decide (s ∈ keys) && is_not_None c then Some c
                  else dict_get s acc
        | Raise _ => dict_get s acc
        end.
Proof.
  match goal with |- context [for_fold _ _ ?b] => set (body := b) end.
  induction keys as [|k keys IH]; intros Hok acc.
  - exists acc. split; [done|]. intros s.
    rewrite bool_decide_false by (intros Hin; inversion Hin).
    by destruct (run _ _).
  - destruct (Hok k) as [c Hc]; [by left|].
    rewrite for_fold_cons.
    assert (body k acc w =
            (Ok (if is_not_None c then dict_set k c acc else acc), w)) as ->.
    { unfold body, bind. rewrite get_price_world, Hc.
      by destruct (is_not_None c). }
    destruct (IH (fun s Hs => Hok s (proj2 (elem_of_cons _ _ _) (or_intror Hs)))
                 (if is_not_None c then dict_set k c acc else acc))
      as (prices & Hrun & Hget).
    exists prices. split; [done|]. intros s. rewrite Hget.
    destruct (run (get_price cfg s) w) as [c'|e] eqn:Hs.
    + destruct (decide (s ∈ keys)) as [Hin|Hnin].
      * rewrite !bool_decide_true by (done || by right). simpl.
        destruct (is_not_None c') eqn:Hnn; [done|].
        destruct (decide (s = k)) as [->|Hne].
        -- assert (c' = c) as -> by congruence. by rewrite Hnn.
        -- destruct (is_not_None c); [|done]. by apply dict_get_set_ne.
      * rewrite (bool_decide_false (s ∈ keys)) by done. simpl.
        destruct (decide (s = k)) as [->|Hne].
        -- assert (c' = c) as -> by congruence.
           rewrite bool_decide_true by (by left). simpl.
           destruct (is_not_None c); [|done]. apply dict_get_set_eq.
        -- rewrite bool_decide_false.
           2:{ intros Hin. apply elem_of_cons in Hin as [?|?]; done. }
           simpl. destruct (is_not_None c); [|done].
           by apply dict_get_set_ne.
    + destruct (decide (s = k)) as [->|Hne]; [congruence|].
      destruct (is_not_None c); [|done]. by apply dict_get_set_ne.
Qed.

(** X10. When [get_price] raises for no configured symbol,
    [get_all_prices] returns, leaves the world alone, and agrees with
    [get_price]: a symbol is listed with price [c] exactly when it is
    configured and [get_price] returns [c] for it, [c] not being
    [None].  Symbols without a readable document are left out. *)
Theorem get_all_prices_agrees_with_get_price w :
  (forall symbol, symbol ∈ map fst (TEAMS cfg) ->
     exists c, run (get_price cfg symbol) w = Ok c) ->
  exists prices,
    get_all_prices cfg w = (Ok prices, w) /\
    forall symbol c,
      dict_get symbol prices = Some c <->
      symbol ∈ map fst (TEAMS cfg) /\
      run (get_price cfg symbol) w = Ok c /\ c <> JNull.
Proof.
  intros Hok.
  destruct (get_all_prices_fold w _ Hok []) as (prices & Hrun & Hget).
  exists prices. split; [exact Hrun|]. intros s c. rewrite Hget. simpl.
  destruct (run (get_price cfg s) w) as [c'|e] eqn:Hs; [|split; [done|]].
  - destruct (decide (s ∈ map fst (TEAMS cfg))) as [Hin|Hnin].
    + rewrite bool_decide_true by done. simpl.
      destruct c'; simpl; split;
        try (intros [= <-]; by split_and!);
        try (intros (_ & [= <-] & Hnn); done); done.
    + rewrite bool_decide_false by done. simpl. split; [done|].
      by intros (? & _).
  - by intros (_ & ? & _).
Qed.

(** X11. One bad document fails [get_all_prices] as a whole: when
    [get_price] raises for some configured symbol, [get_all_prices]
    raises and returns no price at all; and when the reader returns for
    every configured symbol (so that the failure lies in a document
    that is readable but is not a [dict], or has no ['current_price']),
    [get_all_stocks] on the same store still returns. *)
Theorem get_all_prices_fails_as_a_whole symbol e w :
  symbol ∈ map fst (TEAMS cfg) ->
  run (get_price cfg symbol) w = Raise e ->
  (exists e', get_all_prices cfg w = (Raise e', w)) /\
  (reader_returns cfg w ->
   exists stocks, get_all_stocks cfg w = (Ok stocks, w)).
Proof.
  intros Hin He. split.
  2:{ intros Hret. rewrite get_all_stocks_spec; [eauto|].
      intros s Hs. destruct (Hret s Hs) as [data Hd].
      by apply reader_returns_settled in Hd as [? _]. }
  unfold get_all_prices.
  match goal with |- context [for_fold _ _ ?b] => set (body := b) end.
  generalize (@nil (string * json)) as acc.
  revert Hin. generalize (map fst (TEAMS cfg)) as keys.
  induction keys as [|k keys IH]; intros Hin acc; [inversion Hin|].
  rewrite for_fold_cons.
  destruct (run (get_price cfg k) w) as [c|e'] eqn:Hk.
  - assert (body k acc w =
            (Ok (if is_not_None c then dict_set k c acc else acc), w)) as ->.
    { unfold body, bind. rewrite get_price_world, Hk.
      by destruct (is_not_None c). }
    apply IH. apply elem_of_cons in Hin as [->|Hin]; [congruence|done].
  - assert (body k acc w = (Raise e', w)) as ->.
    { unfold body, bind. by rewrite get_price_world, Hk. }
    eauto.
Qed.

End WholeStoreProperties.

(** ** More of the activity scores *)

Section ActivityEdgeProperties.

Variable cfg : config.

Local Notation "'decay'" := (ACTIVITY_DECAY cfg).

Lemma py_add_one_defined v : exists v', py_add v (NInt 1) = Ok v'.
Proof. destruct v as [z|f]; simpl; eauto. Qed.

(** X12. [increment_activity] always returns and acts on one score
    only: files, clock and the set of tracked symbols stay as they are,
    and so does the score of every other symbol; for a symbol that is
    not tracked the world is unchanged and its score reads as 0. *)
Theorem increment_activity_is_local symbol w :
  let w' := exec (increment_activity symbol) w in
  run (increment_activity symbol) w = Ok tt /\
  files w' = files w /\
  ticks w' = ticks w /\
  map fst (activity_scores w') = map fst (activity_scores w) /\
  (forall k, k <> symbol ->
     run (get_activity_score k) w' = run (get_activity_score k) w) /\
  (dict_get symbol (activity_scores w) = None ->
     w' = w /\ run (get_activity_score symbol) w' = Ok (NInt 0)).
Proof.
  intros w'. unfold w', run, exec.
  destruct (dict_get symbol (activity_scores w)) as [v|] eqn:Hg.
  - destruct (py_add_one_defined v) as [v' Hv'].
    assert (increment_activity symbol w
            = (Ok tt, World (files w) (ticks w)
                        (dict_set symbol v' (activity_scores w)))) as ->.
    { unfold increment_activity, bind, get_scores, score_item. simpl.
      rewrite Hg. rewrite bool_decide_true by eauto. simpl.
      rewrite Hg. unfold lift. by rewrite Hv'. }
    simpl. split_and!; try done.
    + apply dict_set_keys_present. eauto.
    + intros k Hk. unfold get_activity_score, bind, get_scores. simpl.
      by rewrite dict_get_set_ne.
  - rewrite (increment_activity_unknown symbol w Hg). simpl.
    split_and!; try done. intros _. split; [done|].
    unfold get_activity_score, bind, get_scores. simpl. by rewrite Hg.
Qed.

(** X13. One [decay_activity] multiplies every tracked score by the
    decay factor, whatever the scores are: when the tracked symbols are
    distinct and every product is defined, it returns, leaves files and
    clock alone, keeps the set of tracked symbols, and each score [x]
    becomes the product [x * ACTIVITY_DECAY]. *)
Theorem decay_activity_scales_every_score w :
  NoDup (map fst (activity_scores w)) ->
  (forall k x, dict_get k (activity_scores w) = Some x ->
     exists v, py_mul x decay = Ok v) ->
  let w' := exec (decay_activity cfg) w in
  run (decay_activity cfg) w = Ok tt /\
  files w' = files w /\
  ticks w' = ticks w /\
  (forall k x, dict_get k (activity_scores w) = Some x ->
     exists v, py_mul x decay = Ok v /\
               dict_get k (activity_scores w') = Some v) /\
  (forall k, dict_get k (activity_scores w) = None ->
     dict_get k (activity_scores w') = None).
Proof.
  intros Hnd Hdef w'. destruct w as [fs t scores]. simpl in *.
  destruct (decay_loop cfg fs t (map fst scores) Hnd scores)
    as (scores' & Hrun & Hin & Hout).
  { intros k Hk. apply dict_get_is_Some_keys in Hk as [x Hx].
    destruct (Hdef k x Hx) as [v Hv]. eauto. }
  assert (decay_activity cfg (World fs t scores)
          = (Ok tt, World fs t scores')) as Hd.
  { unfold decay_activity, bind at 1, get_scores. simpl. apply Hrun. }
  unfold w', run, exec. rewrite Hd. simpl. split_and!; try done.
  - intros k x Hx. destruct (Hdef k x Hx) as [v Hv]. exists v.
    split; [done|]. apply (Hin k x v); [|done|done].
    apply dict_get_is_Some_keys. eauto.
  - intros k Hk. rewrite Hout; [done|].
    intros Hin'. apply dict_get_is_Some_keys in Hin' as [x Hx]. congruence.
Qed.

(** The tracked symbols of a fresh [MarketData] are distinct, and the
    operations on scores keep them. *)
Lemma fresh_scores_NoDup fs t :
  NoDup (map fst (activity_scores (__init__ cfg fs t))).
Proof. apply zero_scores_spec. Qed.

End ActivityEdgeProperties.

(** ** Team detection *)

Section TagScanProperties.

Local Notation "'chars'" := list_ascii_of_string.

Lemma tag_groups_from_sound st s g :
  (forall group, st = Inside group -> "]"%char ∉ group) ->
  g ∈ tag_groups_from st s ->
  g <> "" /\ "]"%char ∉ chars g.
Proof.
  revert st. induction s as [|c s IH]; intros st Hst Hg; simpl in Hg.
  - inversion Hg.
  - destruct st as [|group].
    + destruct (Ascii.eqb c "[") eqn:Ec.
      * apply (IH (Inside [])); [|done]. intros ? [= <-] Hin. inversion Hin.
      * apply (IH Outside); [|done]. intros ? [=].
    + destruct (Ascii.eqb c "]") eqn:Ec.
      * destruct group as [|a group].
        -- apply (IH Outside); [|done]. intros ? [=].
        -- apply elem_of_cons in Hg as [->|Hg].
           ++ split; [done|].
              rewrite list_ascii_of_string_of_list_ascii. by apply Hst.
           ++ apply (IH Outside); [|done]. intros ? [=].
      * apply (IH (Inside (group ++ [c]))); [|done].
        intros ? [= <-] Hin. apply elem_of_app in Hin as [Hin|Hin].
        -- by apply (Hst group).
        -- apply list_elem_of_singleton in Hin. subst.
           by rewrite Ascii.eqb_refl in Ec.
Qed.

Lemma str_endswith_elem c s :
  str_endswith c s = true -> c ∈ chars s.
Proof.
  induction s as [|c' s IH]; simpl; [done|].
  destruct s as [|c'' s].
  - intros Hc. apply Ascii.eqb_eq in Hc. subst. by left.
  - intros Hc. right. by apply IH.
Qed.

End TagScanProperties.

Section TeamDetectionProperties.

Variable cfg : config.
Variable TEAM_TAGS : list (string * string).
Variable role_name : string -> string.
Variable strip : string -> string.
Variable upper : string -> string.

Local Notation "'chars'" := list_ascii_of_string.
Local Notation "'role_map'" := (_ROLE_TO_SYMBOL cfg role_name).
Local Notation "'from_tags'" := (_detect_team_from_tags TEAM_TAGS strip upper).
Local Notation "'from_roles'" := (_detect_team_from_roles cfg role_name).

Lemma first_team_tag_spec groups symbol :
  first_team_tag TEAM_TAGS strip upper groups = Some symbol ->
  symbol <> "" /\
  exists before g after,
    groups = before ++ g :: after /\
    dict_get (tag_of_group strip upper g) TEAM_TAGS = Some symbol /\
    forall g', g' ∈ before ->
      str_truthy (dict_get (tag_of_group strip upper g') TEAM_TAGS) = false.
Proof.
  induction groups as [|g groups IH]; simpl; [done|].
  unfold _get_team_symbol_from_tag.
  destruct (str_truthy (dict_get (tag_of_group strip upper g) TEAM_TAGS))
    eqn:Ht.
  - intros Hs. rewrite Hs in Ht. simpl in Ht. split.
    + intros ->. done.
    + exists [], g, groups. split_and!; [done|done|].
      intros g' Hin. inversion Hin.
  - intros Hs. destruct (IH Hs) as (Hne & before & g0 & after & -> & Hg0 & Hb).
    split; [done|]. exists (g :: before), g0, after.
    split_and!; [done|done|].
    intros g' Hin. apply elem_of_cons in Hin as [->|Hin]; [done|by apply Hb].
Qed.

(** X14. The tag that is looked up is the text between an opening
    bracket and the next closing bracket, stripped and in upper case,
    and nothing else: since that text holds no closing bracket, the
    step that removes an enclosing pair of brackets never applies, for
    any [strip] that only removes characters and any [upper] that makes
    no closing bracket.  The symbol returned is the non-empty entry of
    [TEAM_TAGS] for the first such text that has one. *)
Theorem detect_team_from_tags_looks_up_bracket_text content :
  (forall s c, c ∈ chars (strip s) -> c ∈ chars s) ->
  (forall s, "]"%char ∉ chars s -> "]"%char ∉ chars (upper s)) ->
  (forall g, g ∈ tag_groups content ->
     g <> "" /\ ("]"%char ∉ chars g) /\
     tag_of_group strip upper g = upper (strip g)) /\
  (forall symbol,
     _detect_team_from_tags TEAM_TAGS strip upper content = Some symbol ->
     symbol <> "" /\
     exists before g after,
       tag_groups content = before ++ g :: after /\
       dict_get (upper (strip g)) TEAM_TAGS = Some symbol /\
       forall g', g' ∈ before ->
         str_truthy (dict_get (upper (strip g')) TEAM_TAGS) = false).
Proof.
  intros Hstrip Hupper.
  assert (forall g, g ∈ tag_groups content ->
     g <> "" /\ ("]"%char ∉ chars g) /\
     tag_of_group strip upper g = upper (strip g)) as Hgroups.
  { intros g Hg.
    destruct (tag_groups_from_sound Outside _ g ltac:(intros ? [=]) Hg)
      as [Hne Hno].
    split_and!; [done|done|]. unfold tag_of_group.
    destruct (str_endswith "]" (upper (strip g))) eqn:E.
    - apply str_endswith_elem in E. exfalso.
      apply (Hupper (strip g)); [|done]. intros Hin. by apply Hno, Hstrip.
    - by rewrite andb_false_r. }
  split; [done|]. intros symbol. unfold _detect_team_from_tags.
  destruct (String.eqb content ""); [done|]. intros Hs.
  destruct (first_team_tag_spec _ _ Hs)
    as (Hne & before & g & after & Heq & Hg & Hb).
  split; [done|]. exists before, g, after. split_and!; [done| |].
  - destruct (Hgroups g) as (_ & _ & <-); [|done].
    rewrite Heq. apply elem_of_app. right. by left.
  - intros g' Hin. destruct (Hgroups g') as (_ & _ & <-); [|by apply Hb].
    rewrite Heq. apply elem_of_app. by left.
Qed.

Lemma role_map_spec role :
  (forall symbol, dict_get role role_map = Some symbol ->
     symbol ∈ map fst (TEAMS cfg) /\ role_name symbol = role) /\
  (dict_get role role_map = None <->
     forall symbol, symbol ∈ map fst (TEAMS cfg) -> role_name symbol <> role).
Proof.
  unfold _ROLE_TO_SYMBOL.
  assert (forall (L : list (string * team)) (d0 : list (string * string)),
    let d := foldl (fun d st => dict_set (role_name (fst st)) (fst st) d)
               d0 L in
    (forall symbol, dict_get role d = Some symbol ->
       (symbol ∈ map fst L /\ role_name symbol = role) \/
       dict_get role d0 = Some symbol) /\
    (dict_get role d = None <->
       dict_get role d0 = None /\
       forall symbol, symbol ∈ map fst L -> role_name symbol <> role))
    as Hgen.
  { intros L. induction L as [|[s t] L IH]; intros d0; simpl.
    - split; [by right|]. split; [intros Hn; split; [done|]|by intros [? _]].
      intros symbol Hin. inversion Hin.
    - destruct (IH (dict_set (role_name s) s d0)) as [Hsome Hnone]. split.
      + intros symbol Hg. destruct (Hsome symbol Hg) as [[Hin Hr]|Hd].
        * left. split; [by right|done].
        * destruct (decide (role_name s = role)) as [Heq|Hne].
          -- rewrite Heq, dict_get_set_eq in Hd. injection Hd as <-.
             left. split; [by left|done].
          -- rewrite dict_get_set_ne in Hd by done. by right.
      + rewrite Hnone. split.
        * intros [Hd Hall].
          destruct (decide (role_name s = role)) as [Heq|Hne].
          { by rewrite Heq, dict_get_set_eq in Hd. }
          rewrite dict_get_set_ne in Hd by done. split; [done|].
          intros symbol Hin. apply elem_of_cons in Hin as [->|Hin]; auto.
        * intros [Hd Hall]. split.
          -- rewrite dict_get_set_ne; [done|]. apply Hall. by left.
          -- intros symbol Hin. apply Hall. by right. }
  destruct (Hgen (TEAMS cfg) []) as [Hsome Hnone]. split.
  - intros symbol Hg. by destruct (Hsome symbol Hg) as [?|?].
  - rewrite Hnone. split; [by intros [_ ?]|by intros ?].
Qed.

(** X15. [_detect_team_from_roles] attributes an author to a team
    exactly when the author is a member and one of the member's roles
    is the role of a configured team: a symbol it returns is configured
    and its role is among the member's roles; it returns [None] for an
    author that is no member, and for a member none of whose roles is a
    team role. *)
Theorem detect_team_from_roles_spec member :
  (forall symbol,
     _detect_team_from_roles cfg role_name member = Some symbol ->
     symbol ∈ map fst (TEAMS cfg) /\
     exists roles, member_roles member = Some roles /\
                   role_name symbol ∈ roles) /\
  (_detect_team_from_roles cfg role_name member = None <->
     member_roles member = None \/
     exists roles, member_roles member = Some roles /\
       forall role symbol, role ∈ roles ->
         symbol ∈ map fst (TEAMS cfg) -> role_name symbol <> role).
Proof.
  unfold _detect_team_from_roles.
  destruct (member_roles member) as [roles|]; [|split; [done|]; split; auto].
  assert ((forall symbol, first_team_role cfg role_name roles = Some symbol ->
             symbol ∈ map fst (TEAMS cfg) /\ role_name symbol ∈ roles) /\
          (first_team_role cfg role_name roles = None <->
             forall role symbol, role ∈ roles ->
               symbol ∈ map fst (TEAMS cfg) -> role_name symbol <> role))
    as [Hsome Hnone].
  { induction roles as [|r roles [IHs IHn]]; simpl.
    - split; [done|]. split; [|done]. intros _ role symbol Hin. inversion Hin.
    - destruct (role_map_spec r) as [Hr Hrn].
      destruct (dict_get r role_map) as [s|] eqn:Hg.
      + destruct (Hr s eq_refl) as [Hin Hrs]. split.
        * intros symbol [= <-]. split; [done|]. rewrite Hrs. by left.
        * split; [done|]. intros Hall. exfalso.
          apply (Hall r s); [by left|done|done].
      + split.
        * intros symbol Hs. destruct (IHs symbol Hs). split; [done|by right].
        * rewrite IHn. split.
          -- intros Hall role symbol Hin Hk.
             apply elem_of_cons in Hin as [->|Hin]; [|by apply Hall].
             by apply Hrn.
          -- intros Hall role symbol Hin. apply Hall. by right. }
  split.
  - intros symbol Hs. destruct (Hsome symbol Hs). eauto.
  - rewrite Hnone. split.
    + intros Hall. right. eauto.
    + intros [?|(roles' & [= <-] & Hall)]; done.
Qed.

Lemma from_tags_truthy content :
  from_tags content = None \/ str_truthy (from_tags content) = true.
Proof.
  unfold _detect_team_from_tags. destruct (String.eqb content ""); [by left|].
  induction (tag_groups content) as [|g groups IH]; simpl; [by left|].
  destruct (str_truthy (_get_team_symbol_from_tag TEAM_TAGS
                          (tag_of_group strip upper g))) eqn:Ht;
    [by right|done].
Qed.

(** X16. [detect_team_from_message]: the roles of an author that is not
    a bot come first, whatever the text; the roles of a bot never count;
    and a symbol that is returned is not empty and is either a
    configured symbol whose role the author holds or an entry of
    [TEAM_TAGS]. *)
Theorem detect_team_from_message_spec m :
  (forall symbol, bot (msg_author m) = false ->
     _detect_team_from_roles cfg role_name (msg_author m) = Some symbol ->
     symbol <> "" ->
     detect_team_from_message cfg TEAM_TAGS role_name strip upper m
       = Some symbol) /\
  (bot (msg_author m) = true ->
     detect_team_from_message cfg TEAM_TAGS role_name strip upper m
       = _detect_team_from_tags TEAM_TAGS strip upper (content m)) /\
  (forall symbol,
     detect_team_from_message cfg TEAM_TAGS role_name strip upper m
       = Some symbol ->
     symbol <> "" /\
     ((bot (msg_author m) = false /\ symbol ∈ map fst (TEAMS cfg) /\
       _detect_team_from_roles cfg role_name (msg_author m) = Some symbol) \/
      (exists tag, dict_get tag TEAM_TAGS = Some symbol))).
Proof.
  unfold detect_team_from_message. split_and!.
  - intros symbol -> -> Hne. simpl.
    by rewrite (proj2 (String.eqb_neq symbol "") Hne).
  - intros ->. simpl.
    destruct (from_tags_truthy (content m)) as [->| ->]; done.
  - intros symbol.
    destruct (negb (bot (msg_author m)) &&
              str_truthy (from_roles (msg_author m)))%bool eqn:Hb.
    + apply andb_true_iff in Hb as [Hbot Ht]. intros Hs.
      rewrite Hs in Ht. simpl in Ht.
      split; [intros ->; done|]. left.
      destruct (detect_team_from_roles_spec (msg_author m)) as [Hsome _].
      destruct (Hsome symbol Hs) as [Hin _].
      split_and!; [by destruct (bot _)|done|done].
    + destruct (str_truthy (from_tags (content m))) eqn:Ht; [|done].
      intros Hs. rewrite Hs in Ht. simpl in Ht.
      split; [intros ->; done|]. right.
      revert Hs. unfold _detect_team_from_tags.
      destruct (String.eqb (content m) ""); [done|]. intros Hs.
      destruct (first_team_tag_spec _ _ Hs) as (_ & _ & g & _ & _ & Hg & _).
      eauto.
Qed.

End TeamDetectionProperties.

(** ** The further properties on the sample configurations *)

Section MoreEvaluation.

Import Sample.

Lemma w_fresh_no_data : no_data cfg5 w_fresh "STMP".
Proof. exists JNull. split; vm_compute; reflexivity. Qed.

Lemma stock_files2_NoDup : NoDup (stock_files cfg2).
Proof.
  apply stock_files_NoDup.
  - simpl. apply NoDup_cons. split; [|apply NoDup_singleton].
    intros Hin. apply list_elem_of_singleton in Hin. discriminate.
  - intros s Hs. simpl in Hs.
    repeat (apply elem_of_cons in Hs as [->|Hs]; [done|]). inversion Hs.
Qed.

Lemma w_both_histories : histories_readable cfg2 w_both.
Proof.
  intros s Hs _. simpl in Hs.
  repeat (apply elem_of_cons in Hs as [->|Hs];
          [eexists; vm_compute; reflexivity|]).
  inversion Hs.
Qed.

Lemma w_both_returns : reader_returns cfg2 w_both.
Proof.
  intros s Hs. simpl in Hs.
  repeat (apply elem_of_cons in Hs as [->|Hs];
          [eexists; vm_compute; reflexivity|]).
  inversion Hs.
Qed.

Lemma w_odd_returns : reader_returns cfg2 w_odd.
Proof.
  intros s Hs. simpl in Hs.
  repeat (apply elem_of_cons in Hs as [->|Hs];
          [eexists; vm_compute; reflexivity|]).
  inversion Hs.
Qed.

Lemma w_both_readable : readable cfg2 w_both "STMP".
Proof. eexists. split; vm_compute; reflexivity. Qed.

(** X1 at STMP in a store without files. *)
Lemma symbol_without_data_is_absent_witness :
  no_data cfg5 w_fresh "STMP" /\
  get_price cfg5 "STMP" w_fresh = (Ok JNull, w_fresh) /\
  get_price_history cfg5 "STMP" (Some 3) w_fresh = (Ok (JList []), w_fresh) /\
  update_price cfg5 clock "STMP" 101 w_fresh = (Ok tt, w_fresh).
Proof.
  split; [apply w_fresh_no_data|].
  destruct (symbol_without_data_is_absent cfg5 clock "STMP" w_fresh
              w_fresh_no_data) as (Hp & Hh & Hu).
  split_and!; [exact Hp | exact (Hh (Some 3)) | exact (Hu 101)].
Defined.

Lemma w_odd_readable : readable cfg2 w_odd "STMP".
Proof. eexists. split; vm_compute; reflexivity. Qed.

Lemma w_odd_no_history : ~ (exists h, history_is cfg2 w_odd "STMP" h).
Proof. intros [h Hh]. vm_compute in Hh. discriminate. Qed.

Lemma w_cut_escapes : load_escapes cfg2 w_cut "STMP" UnicodeDecodeError.
Proof. exists Undecodable. split; vm_compute; reflexivity. Qed.

Lemma w_cut_no_history : ~ (exists h, history_is cfg2 w_cut "STMP" h).
Proof. intros [h Hh]. vm_compute in Hh. discriminate. Qed.

(** X2 at STMP, once with a document that is a [dict] without
    ['price_history'], once with a file that is not UTF-8 text: the
    update raises and the world is as before. *)
Lemma update_price_raises_before_writing_witness :
  (((exists e0, load_escapes cfg2 w_odd "STMP" e0) \/
    readable cfg2 w_odd "STMP") /\
   ~ (exists h, history_is cfg2 w_odd "STMP" h) /\
   exists e, update_price cfg2 clock "STMP" 101 w_odd = (Raise e, w_odd) /\
             (e = TypeError \/ e = KeyError \/ e = AttributeError)) /\
  (((exists e0, load_escapes cfg2 w_cut "STMP" e0) \/
    readable cfg2 w_cut "STMP") /\
   ~ (exists h, history_is cfg2 w_cut "STMP" h) /\
   update_price cfg2 clock "STMP" 101 w_cut
     = (Raise UnicodeDecodeError, w_cut)).
Proof.
  split.
  - split; [right; apply w_odd_readable|].
    split; [apply w_odd_no_history|].
    destruct (update_price_raises_before_writing cfg2 clock "STMP" 101 w_odd
                (or_intror w_odd_readable) w_odd_no_history)
      as (e & Hu & _ & He).
    exists e. split; [exact Hu | exact (He w_odd_readable)].
  - split; [left; exists UnicodeDecodeError; apply w_cut_escapes|].
    split; [apply w_cut_no_history|].
    destruct (update_price_raises_before_writing cfg2 clock "STMP" 101 w_cut
                (or_introl (ex_intro _ _ w_cut_escapes)) w_cut_no_history)
      as (e & Hu & He & _).
    rewrite <- (He _ w_cut_escapes). exact Hu.
Defined.

(** X3 at STMP, price 101. *)
Lemma update_price_frame_witness :
  let w' := exec (update_price cfg5 clock "STMP" 101) w_stmp in
  (readable cfg5 w_stmp "STMP" /\
   update_price cfg5 clock "STMP" 101 w_stmp = (Ok tt, w')) /\
  activity_scores w' = activity_scores w_stmp /\
  ticks w' = S (ticks w_stmp) /\
  exists d', stored cfg5 w' "STMP" = JDict d' /\
             dict_get "team_name" d' = Some (JStr "Steampunks") /\
             dict_get "starting_price" d' = Some (JInt 100).
Proof.
  intros w'.
  assert (update_price cfg5 clock "STMP" 101 w_stmp = (Ok tt, w')) as Hu
    by (vm_compute; reflexivity).
  split; [by split; [apply w_stmp_readable|]|].
  destruct (update_price_frame cfg5 clock "STMP" 101 w_stmp w'
              w_stmp_readable Hu) as (Hs & Ht & _ & d & d' & Hd & Hd' & Hk).
  split_and!; [exact Hs | exact Ht |].
  exists d'. split; [exact Hd'|].
  assert (d = [("team_name", JStr "Steampunks"); ("symbol", JStr "STMP");
               ("starting_price", JInt 100); ("current_price", JInt 100);
               ("volatility", JNum (volatility stmp));
               ("price_history",
                JList [sample "2023-12-31T23:59:59" 100])]) as ->.
  { vm_compute in Hd. by injection Hd as <-. }
  split; rewrite Hk; done.
Defined.

(** X4 at STMP with a history of two samples and the limit [-1]. *)
Lemma get_price_history_negative_limit_witness :
  let h := map (sample "2023-12-31T23:59:59") [100; 150] in
  (readable cfg2 w_full "STMP" /\ history_is cfg2 w_full "STMP" h /\ -1 < 0) /\
  run (get_price_history cfg2 "STMP" (Some (-1))) w_full
    = Ok (JList [sample "2023-12-31T23:59:59" 150]).
Proof.
  intros h.
  assert (history_is cfg2 w_full "STMP" h) as Hh by (vm_compute; reflexivity).
  split; [by split_and!; [apply w_full_readable| |lia]|].
  exact (get_price_history_negative_limit cfg2 "STMP" w_full h (-1)
           w_full_readable Hh ltac:(lia)).
Defined.

(** X6 at two spellings of one symbol. *)
Lemma get_stock_file_injective_witness :
  let s1 := "STMP" in
  let s2 := "ST" +:+ "MP" in
  (startswith_slash s1 = false /\ startswith_slash s2 = false /\
   _get_stock_file cfg5 s1 = _get_stock_file cfg5 s2) /\
  s1 = s2.
Proof.
  intros s1 s2.
  assert (_get_stock_file cfg5 s1 = _get_stock_file cfg5 s2) as Hp
    by reflexivity.
  split; [by split_and!|].
  exact (get_stock_file_injective cfg5 s1 s2 eq_refl eq_refl Hp).
Defined.

(** X7 on the two documents: STMP goes from 150 back to 100 and its
    history from two samples to three; GEAR goes from 260 back to 250. *)
Lemma reset_prices_restores_starting_prices_witness :
  let w' := exec (reset_prices cfg2 clock) w_both in
  (NoDup (stock_files cfg2) /\ reader_returns cfg2 w_both /\
   histories_readable cfg2 w_both) /\
  run (reset_prices cfg2 clock) w_both = Ok tt /\
  run (get_price cfg2 "STMP") w' = Ok (JInt 100) /\
  run (get_price cfg2 "GEAR") w' = Ok (JInt 250) /\
  exists k, history_is cfg2 w' "STMP"
              (map (sample "2023-12-31T23:59:59") [100; 150]
               ++ [sample (clock k) 100]).
Proof.
  intros w'.
  split; [split_and!; [apply stock_files2_NoDup | apply w_both_returns
                      | apply w_both_histories]|].
  destruct (reset_prices_restores_starting_prices cfg2 clock w_both
              stock_files2_NoDup w_both_returns w_both_histories)
    as (Hrun & _ & _ & _ & Hreset).
  split; [exact Hrun|].
  destruct (Hreset "STMP" stmp
              (map (sample "2023-12-31T23:59:59") [100; 150]))
    as [Hp Hh]; [by left | apply w_both_readable | vm_compute; reflexivity|].
  destruct (Hreset "GEAR" gear (map (sample "2023-12-31T23:59:59") [260]))
    as [Hg _];
    [right; by left | eexists; split; vm_compute; reflexivity
    | vm_compute; reflexivity|].
  split_and!; [exact Hp | exact Hg | exact Hh].
Defined.

(** X8 at STMP under the cap of 2: after the reset the history holds
    three samples, after the update two. *)
Lemma update_after_reset_within_cap_witness :
  let w1 := exec (reset_prices cfg2 clock) w_both in
  let w2 := exec (update_price cfg2 clock "STMP" 105) w1 in
  (0 < PRICE_HISTORY_MAX cfg2 /\ NoDup (stock_files cfg2) /\
   histories_readable cfg2 w_both /\ ("STMP", stmp) ∈ TEAMS cfg2 /\
   readable cfg2 w_both "STMP") /\
  run (update_price cfg2 clock "STMP" 105) w1 = Ok tt /\
  run (get_price cfg2 "STMP") w2 = Ok (JInt 105) /\
  exists h2, history_is cfg2 w2 "STMP" h2 /\
             Z.of_nat (length h2) <= PRICE_HISTORY_MAX cfg2.
Proof.
  intros w1 w2.
  assert (0 < PRICE_HISTORY_MAX cfg2) as H1 by (simpl; lia).
  assert (("STMP", stmp) ∈ TEAMS cfg2) as H4 by (by left).
  split; [by split_and!; [|apply stock_files2_NoDup|apply w_both_histories
                          | |apply w_both_readable]|].
  exact (update_after_reset_within_cap cfg2 clock "STMP" stmp 105 w_both H1
           stock_files2_NoDup w_both_histories H4 w_both_readable).
Defined.

Lemma w_fresh2_no_files symbol :
  symbol ∈ map fst (TEAMS cfg2) ->
  files w_fresh2 !! _get_stock_file cfg2 symbol = None.
Proof. intros _. apply lookup_empty. Qed.

(** X9 on the two-team configuration without files. *)
Lemma initialize_fresh_store_witness :
  let w' := exec (initialize cfg2 clock) w_fresh2 in
  NoDup (stock_files cfg2) /\
  run (get_price cfg2 "STMP") w' = Ok (JInt 100) /\
  run (get_price cfg2 "GEAR") w' = Ok (JInt 250) /\
  run (get_all_stocks cfg2) w'
    = Ok [seeded "STMP" stmp (clock 0); seeded "GEAR" gear (clock 1)].
Proof.
  intros w'. split; [apply stock_files2_NoDup|].
  destruct (initialize_fresh_store cfg2 clock w_fresh2 stock_files2_NoDup
              w_fresh2_no_files) as [Hdoc Hall].
  destruct (Hdoc 0%nat "STMP" stmp eq_refl) as (_ & Hp0 & _).
  destruct (Hdoc 1%nat "GEAR" gear eq_refl) as (_ & Hp1 & _).
  split_and!; [exact Hp0 | exact Hp1 | exact Hall].
Defined.

Lemma w_both_prices symbol :
  symbol ∈ map fst (TEAMS cfg2) ->
  exists c, run (get_price cfg2 symbol) w_both = Ok c.
Proof.
  intros Hs. simpl in Hs.
  repeat (apply elem_of_cons in Hs as [->|Hs];
          [eexists; vm_compute; reflexivity|]).
  inversion Hs.
Qed.

(** X10 on the two documents. *)
Lemma get_all_prices_agrees_with_get_price_witness :
  (forall symbol, symbol ∈ map fst (TEAMS cfg2) ->
     exists c, run (get_price cfg2 symbol) w_both = Ok c) /\
  exists prices,
    get_all_prices cfg2 w_both = (Ok prices, w_both) /\
    dict_get "STMP" prices = Some (JInt 150) /\
    dict_get "GEAR" prices = Some (JInt 260) /\
    dict_get "COGS" prices = None.
Proof.
  split; [apply w_both_prices|].
  destruct (get_all_prices_agrees_with_get_price cfg2 w_both w_both_prices)
    as (prices & Hrun & Hget).
  exists prices. split; [exact Hrun|]. split_and!.
  - apply Hget. split_and!; [by left | vm_compute; reflexivity | done].
  - apply Hget. split_and!; [right; by left | vm_compute; reflexivity | done].
  - destruct (dict_get "COGS" prices) as [c|] eqn:Hc; [|done].
    apply Hget in Hc as (Hin & _). simpl in Hin.
    repeat (apply elem_of_cons in Hin as [Hin|Hin]; [discriminate|]).
    inversion Hin.
Defined.

(** X11 at STMP, whose document has no ['current_price'], next to the
    document of GEAR. *)
Lemma get_all_prices_fails_as_a_whole_witness :
  ("STMP" ∈ map fst (TEAMS cfg2) /\
   run (get_price cfg2 "STMP") w_odd = Raise KeyError /\
   reader_returns cfg2 w_odd) /\
  get_all_prices cfg2 w_odd = (Raise KeyError, w_odd) /\
  exists stocks, get_all_stocks cfg2 w_odd = (Ok stocks, w_odd).
Proof.
  assert ("STMP" ∈ map fst (TEAMS cfg2)) as H1 by (by left).
  assert (run (get_price cfg2 "STMP") w_odd = Raise KeyError) as H2
    by (vm_compute; reflexivity).
  split; [by split_and!; [| |apply w_odd_returns]|].
  destruct (get_all_prices_fails_as_a_whole cfg2 "STMP" KeyError w_odd H1 H2)
    as [_ Hstocks].
  split; [vm_compute; reflexivity | exact (Hstocks w_odd_returns)].
Defined.

(** X13 on the scores of a fresh [MarketData] after two increments of
    STMP, with the decay factor 0.5. *)
Lemma decay_activity_scales_every_score_witness :
  let w2 := exec (repeat_call 2 (increment_activity "STMP")) w_fresh2 in
  let w' := exec (decay_activity cfg2) w2 in
  NoDup (map fst (activity_scores w2)) /\
  run (decay_activity cfg2) w2 = Ok tt /\
  run (get_activity_score "STMP") w'
    = Ok (NFloat (S754_finite false 4503599627370496 (-52))) /\
  run (get_activity_score "GEAR") w' = Ok (NFloat (S754_zero false)).
Proof.
  intros w2 w'.
  assert (NoDup (map fst (activity_scores w2))) as Hnd.
  { change (NoDup ["STMP"; "GEAR"]).
    apply NoDup_cons. split; [|apply NoDup_singleton].
    intros Hin. apply list_elem_of_singleton in Hin. discriminate. }
  assert (forall k x, dict_get k (activity_scores w2) = Some x ->
            exists v, py_mul x (ACTIVITY_DECAY cfg2) = Ok v) as Hdef.
  { intros k x. change (activity_scores w2)
      with [("STMP", NInt 2); ("GEAR", NInt 0)]. simpl.
    destruct (String.eqb k "STMP"); [intros [= <-]; eexists; reflexivity|].
    destruct (String.eqb k "GEAR"); [intros [= <-]; eexists; reflexivity|].
    done. }
  split; [exact Hnd|].
  destruct (decay_activity_scales_every_score cfg2 w2 Hnd Hdef)
    as (Hrun & _ & _ & _ & _).
  split; [exact Hrun|]. split; vm_compute; reflexivity.
Defined.

End MoreEvaluation.

Section TeamDetectionEvaluation.

Import Sample.

Local Notation "'chars'" := list_ascii_of_string.

Lemma ascii_upper_char_close c :
  ascii_upper_char c = "]"%char -> c = "]"%char.
Proof.
  destruct c as [[] [] [] [] [] [] [] []]; vm_compute; congruence.
Qed.

Lemma ascii_upper_no_close s :
  "]"%char ∉ chars s -> "]"%char ∉ chars (ascii_upper s).
Proof.
  unfold ascii_upper. rewrite list_ascii_of_string_of_list_ascii.
  intros Hn Hin. apply elem_of_map in Hin as (c & Heq & Hc).
  symmetry in Heq. apply ascii_upper_char_close in Heq. by subst.
Qed.

Lemma lstrip_sub l c : c ∈ lstrip l -> c ∈ l.
Proof.
  induction l as [|a l IH]; simpl; [done|].
  destruct (ascii_is_space a); [|done]. intros Hin. right. by apply IH.
Qed.

Lemma ascii_strip_sub s c : c ∈ chars (ascii_strip s) -> c ∈ chars s.
Proof.
  unfold ascii_strip. rewrite list_ascii_of_string_of_list_ascii.
  intros Hin. apply (proj1 (elem_of_reverse _ _)) in Hin.
  apply lstrip_sub in Hin. apply (proj1 (elem_of_reverse _ _)) in Hin.
  by apply lstrip_sub in Hin.
Qed.

(** X14 on a text with a tag in double brackets and a padded tag: the
    first is looked up as ["[S"], which is no tag, and the second gives
    the team. *)
Lemma detect_team_from_tags_looks_up_bracket_text_witness :
  let text := "[[s]] hi [ stmp ]" in
  tag_groups text = ["[s"; " stmp "] /\
  tag_of_group ascii_strip ascii_upper "[s" = "[S" /\
  _detect_team_from_tags tags2 ascii_strip ascii_upper text = Some "STMP" /\
  _detect_team_from_tags tags2 ascii_strip ascii_upper "[[s]]" = None /\
  _detect_team_from_tags tags2 ascii_strip ascii_upper "[s]" = Some "STMP".
Proof.
  intros text.
  destruct (detect_team_from_tags_looks_up_bracket_text
              tags2 ascii_strip ascii_upper text
              ascii_strip_sub ascii_upper_no_close) as [Hgroups _].
  assert ("[s" ∈ tag_groups text) as Hin by (by left).
  destruct (Hgroups "[s" Hin) as (_ & _ & Htag).
  split_and!; [reflexivity | rewrite Htag; reflexivity
              | reflexivity | reflexivity | reflexivity].
Defined.

End TeamDetectionEvaluation.

(** ** A cap of zero, and a reset that fails part of the way *)

Section CapAndResetEdgeProperties.

Variable cfg : config.
Variable clock : nat -> string.

Local Notation "'H'" := (PRICE_HISTORY_MAX cfg).
Local Notation "'path'" := (_get_stock_file cfg).

(** X17. A cap of 0 switches the trim off instead of emptying the
    history: the slice [history[-0:]] is the whole list, so with
    [PRICE_HISTORY_MAX = 0] an update of a readable document with
    history [h] returns and leaves [h] followed by the new sample. *)
Theorem update_price_cap_zero_keeps_all symbol p w h :
  H = 0 ->
  readable cfg w symbol ->
  history_is cfg w symbol h ->
  let w' := exec (update_price cfg clock symbol p) w in
  run (update_price cfg clock symbol p) w = Ok tt /\
  history_is cfg w' symbol (h ++ [sample (clock (ticks w)) p]).
Proof.
  intros H0 Hr Hh w'.
  apply history_is_stored in Hh as (d & Hd & Hg); [|done].
  pose proof (update_price_spec cfg clock symbol p w d h Hd Hg) as Hu.
  unfold w', run, exec. rewrite Hu. simpl. split; [done|].
  assert (trimmed cfg (h ++ [sample (clock (ticks w)) p])
          = h ++ [sample (clock (ticks w)) p]) as <-.
  { unfold trimmed. rewrite H0.
    destruct (_ >? 0); [apply slice_from_zero|done]. }
  apply history_is_updated.
Qed.

(** X18. [reset_prices] is not all or nothing.  When the first
    configured symbol has a readable document with history [h] and the
    second has a readable document of which no history can be read, the
    call raises, the first symbol is already reset (starting price, one
    more sample) and the file of the second is as it was. *)
Theorem reset_prices_partial_on_failure s1 t1 s2 t2 rest w h :
  TEAMS cfg = (s1, t1) :: (s2, t2) :: rest ->
  path s1 <> path s2 ->
  readable cfg w s1 ->
  history_is cfg w s1 h ->
  readable cfg w s2 ->
  ~ (exists h2, history_is cfg w s2 h2) ->
  let w' := exec (reset_prices cfg clock) w in
  (exists e, run (reset_prices cfg clock) w = Raise e) /\
  run (get_price cfg s1) w' = Ok (JInt (starting_price t1)) /\
  history_is cfg w' s1 (h ++ [sample (clock (ticks w)) (starting_price t1)]) /\
  files w' !! path s2 = files w !! path s2.
Proof.
  intros HT Hne Hr1 Hh1 Hr2 Hno w'.
  apply history_is_stored in Hh1 as (d1 & Hd1 & Hg1); [|done].
  set (w1 := written cfg w s1
               (reset_doc d1 h (clock (ticks w)) (starting_price t1)) 1).
  assert (stored cfg w1 s2 = stored cfg w s2) as Hs2.
  { unfold stored, w1, written. simpl. by rewrite lookup_insert_ne. }
  assert (exists e, reset_prices cfg clock w = (Raise e, w1)) as [e Hrun].
  { unfold reset_prices. rewrite HT.
    match goal with |- context [for_each _ ?b] => set (body := b) end.
    rewrite for_each_cons.
    assert (body (s1, t1) w = (Ok tt, w1)) as ->.
    { unfold body, bind.
      rewrite read_stock_data_spec, Hd1 by by eapply dict_settled.
      assert (truthy (JDict d1) = true) as -> by by destruct d1.
      unfold lift. simpl. by rewrite dict_get_set_ne, Hg1. }
    rewrite for_each_cons.
    assert (exists e, body (s2, t2) w1 = (Raise e, w1)) as [e ->]; [|eauto].
    apply readable_stored in Hr2 as Ht2.
    unfold body, bind. rewrite read_stock_data_spec, Hs2, Ht2
      by (apply truthy_settled; by rewrite Hs2).
    destruct (stored cfg w s2) as [| | | | |d2] eqn:Hd2; simpl; eauto.
    unfold lift. simpl. rewrite dict_get_set_ne by done.
    destruct (dict_get "price_history" d2) as [v|] eqn:Hg2; simpl; eauto.
    destruct v as [| | | |h2|]; simpl; eauto.
    exfalso. apply Hno. exists h2. apply history_is_stored; eauto. }
  unfold w', run, exec. rewrite Hrun. simpl. split_and!.
  - eauto.
  - rewrite get_price_spec by apply written_settled.
    unfold w1. rewrite stored_written.
    unfold reset_doc. rewrite truthy_dict_set. simpl.
    by rewrite dict_get_set_ne, dict_get_set_eq.
  - eapply history_is_dict.
    + unfold w1. by rewrite stored_written.
    + apply dict_get_set_eq.
  - unfold w1, written. simpl. by rewrite lookup_insert_ne.
Qed.

End CapAndResetEdgeProperties.

Section CapAndResetEvaluation.

Import Sample.

(** X17 at STMP under a cap of 0. *)
Lemma update_price_cap_zero_keeps_all_witness :
  let h := [sample "2023-12-31T23:59:59" 100] in
  let w' := exec (update_price cfg0 clock "STMP" 101) w_stmp0 in
  (PRICE_HISTORY_MAX cfg0 = 0 /\ readable cfg0 w_stmp0 "STMP" /\
   history_is cfg0 w_stmp0 "STMP" h) /\
  run (update_price cfg0 clock "STMP" 101) w_stmp0 = Ok tt /\
  history_is cfg0 w' "STMP" (h ++ [sample (clock 0) 101]).
Proof.
  intros h w'.
  assert (readable cfg0 w_stmp0 "STMP") as Hr
    by (eexists; split; vm_compute; reflexivity).
  assert (history_is cfg0 w_stmp0 "STMP" h) as Hh by (vm_compute; reflexivity).
  split; [by split_and!|].
  exact (update_price_cap_zero_keeps_all cfg0 clock "STMP" 101 w_stmp0 h
           eq_refl Hr Hh).
Defined.

(** X18 on STMP, which is fine, before GEAR, which has no history. *)
Lemma reset_prices_partial_on_failure_witness :
  let h := map (sample "2023-12-31T23:59:59") [100; 150] in
  let w' := exec (reset_prices cfg2 clock) w_half in
  run (reset_prices cfg2 clock) w_half = Raise KeyError /\
  run (get_price cfg2 "STMP") w_half = Ok (JInt 150) /\
  run (get_price cfg2 "STMP") w' = Ok (JInt 100) /\
  history_is cfg2 w' "STMP" (h ++ [sample (clock 0) 100]).
Proof.
  intros h w'.
  assert (readable cfg2 w_half "STMP") as Hr1
    by (eexists; split; vm_compute; reflexivity).
  assert (history_is cfg2 w_half "STMP" h) as Hh1
    by (vm_compute; reflexivity).
  assert (readable cfg2 w_half "GEAR") as Hr2
    by (eexists; split; vm_compute; reflexivity).
  assert (~ (exists h2, history_is cfg2 w_half "GEAR" h2)) as Hno.
  { intros [h2 Hh2]. vm_compute in Hh2. discriminate. }
  destruct (reset_prices_partial_on_failure cfg2 clock
              "STMP" stmp "GEAR" gear [] w_half h eq_refl
              ltac:(vm_compute; discriminate) Hr1 Hh1 Hr2 Hno)
    as (_ & Hp & Hh & _).
  split_and!; [vm_compute; reflexivity | vm_compute; reflexivity
              | exact Hp | exact Hh].
Defined.

End CapAndResetEvaluation.
